(** * react-icon-builder: a shallow embedding of the icon pipelines

    The repository holds two near-identical Node programs.  Both list the
    [.svg] files of a GitHub directory, fetch each one, and write a React
    component per icon.  The "outline" program extracts one path with a
    regular expression; the "solid" program inlines the optimized markup.

    JavaScript strings are modelled as [string]; a character is an [ascii],
    so the model covers code units 0..255.  Effects (network, file system,
    console, exceptions) are threaded through a small state-and-exception
    monad over a [World]. *)

From Stdlib Require Import ZArith Ascii String DecimalString.
From stdpp Require Import gmap strings.

#[local] Arguments String.append !_ _ / : simpl nomatch.

(** ** Characters *)

Definition code (c : ascii) : nat := nat_of_ascii c.

(** The double quote and the line feed, which a literal cannot hold. *)
Definition dq : string := String (ascii_of_nat 34) "".
Definition nl : string := String (ascii_of_nat 10) "".

(** [\w] is [A-Za-z0-9_]. *)
Definition is_word (c : ascii) : bool :=
  let n := code c in
  ((48 <=? n) && (n <=? 57)) || ((65 <=? n) && (n <=? 90))
  || ((97 <=? n) && (n <=? 122)) || (n =? 95).

(** [\s] below code unit 256: tab, line feed, vertical tab, form feed,
    carriage return, space and the no-break space. *)
Definition is_space (c : ascii) : bool :=
  let n := code c in
  ((9 <=? n) && (n <=? 13)) || (n =? 32) || (n =? 160).

Definition is_lower (c : ascii) : bool :=
  let n := code c in (97 <=? n) && (n <=? 122).

Definition is_char (a c : ascii) : bool := bool_decide (a = c).
Definition not_char (a c : ascii) : bool := negb (is_char a c).

(** Upper-casing of one code unit.  The program only upper-cases matches of
    [(^\w|-\w)], which are ASCII; other code units are left as they are. *)
Definition upper (c : ascii) : ascii :=
  if is_lower c then ascii_of_nat (code c - 32) else c.

(** ** String primitives *)

Fixpoint smap (f : ascii -> ascii) (s : string) : string :=
  match s with
  | "" => ""
  | String c s' => String (f c) (smap f s')
  end.

Fixpoint sall (p : ascii -> bool) (s : string) : bool :=
  match s with
  | "" => true
  | String c s' => p c && sall p s'
  end.

Fixpoint sdrop (n : nat) (s : string) : string :=
  match n, s with
  | S k, String _ s' => sdrop k s'
  | _, _ => s
  end.

Fixpoint stake (n : nat) (s : string) : string :=
  match n, s with
  | S k, String c s' => String c (stake k s')
  | _, _ => ""
  end.

Fixpoint srev_onto (acc s : string) : string :=
  match s with
  | "" => acc
  | String c s' => srev_onto (String c acc) s'
  end.

Definition srev (s : string) : string := srev_onto "" s.

(** [String.prototype.toUpperCase]. *)
Definition toUpperCase (s : string) : string := smap upper s.

(** [s.startsWith(p)], as a boolean and as the rest after the prefix. *)
Fixpoint strip_prefix (p s : string) : option string :=
  match p, s with
  | "", _ => Some s
  | String a p', String b s' => if bool_decide (a = b) then strip_prefix p' s' else None
  | String _ _, "" => None
  end.

(** [s.endsWith(t)]: [t] is no longer than [s] and the last [|t|] code
    units of [s] are [t]. *)
Definition endsWith (s t : string) : bool :=
  let n := String.length s in
  let m := String.length t in
  (m <=? n) && bool_decide (sdrop (n - m) s = t).

(** [s.lastIndexOf(t)]: the largest index at which [t] occurs, or -1. *)
Fixpoint lastIndexOf_from (i : Z) (s t : string) : Z :=
  let here := match strip_prefix t s with Some _ => i | None => (-1)%Z end in
  match s with
  | "" => here
  | String _ s' =>
      let later := lastIndexOf_from (i + 1) s' t in
      if (0 <=? later)%Z then later else here
  end.

Definition lastIndexOf (s t : string) : Z := lastIndexOf_from 0 s t.

(** [s.substring(a, b)]: both ends are clamped to [0, s.length] and swapped
    when out of order. *)
Definition clamp (len x : Z) : Z := Z.max 0 (Z.min x len).

Definition substring (s : string) (a b : Z) : string :=
  let len := Z.of_nat (String.length s) in
  let a' := clamp len a in
  let b' := clamp len b in
  let lo := Z.min a' b' in
  let hi := Z.max a' b' in
  stake (Z.to_nat (hi - lo)) (sdrop (Z.to_nat lo) s).

(** [s.trim()]: white space is removed from both ends. *)
Fixpoint trimStart (s : string) : string :=
  match s with
  | "" => ""
  | String c s' => if is_space c then trimStart s' else s
  end.

Definition trim (s : string) : string := srev (trimStart (srev (trimStart s))).

(** [String(n)] for a non-negative integer. *)
Definition string_of_nat (n : nat) : string := NilZero.string_of_uint (Nat.to_uint n).

(** ** Regular expressions

    A pattern is a backtracking matcher in continuation-passing style: it is
    given the subject from the current position and a continuation for what
    is left after it, and answers with the first success in the priority
    order of the JavaScript engine. *)

Definition rx (A : Type) : Type := string -> (string -> option A) -> option A.

(** A literal string. *)
Definition lit {A} (l : string) : rx A :=
  fun s k => match strip_prefix l s with Some s' => k s' | None => None end.

(** One code unit of a class. *)
Definition cls {A} (p : ascii -> bool) : rx A :=
  fun s k =>
    match s with
    | String c s' => if p c then k s' else None
    | "" => None
    end.

(** A greedy star over a class: the longest run first, then shorter ones. *)
Fixpoint star {A} (p : ascii -> bool) (s : string) (k : string -> option A) : option A :=
  match s with
  | String c s' =>
      if p c then
        match star p s' k with
        | Some r => Some r
        | None => k s
        end
      else k s
  | "" => k s
  end.

(** Alternation: the left branch with all that follows it, then the right. *)
Definition alt {A} (r1 r2 : rx A) : rx A :=
  fun s k => match r1 s k with Some r => Some r | None => r2 s k end.

(** The text between a position [s] and a later position [rest]. *)
Definition consumed (s rest : string) : string :=
  stake (String.length s - String.length rest) s.

(** [str.replace(re, f)] for a pattern without the [g] flag, or for a string
    pattern: the leftmost match is replaced.  [re pos s] is the match of the
    pattern at index [pos], where the subject continues with [s]. *)
Fixpoint replace_first (re : nat -> string -> option string) (f : string -> string)
    (pos : nat) (s : string) : string :=
  match re pos s with
  | Some m => f m +:+ sdrop (String.length m) s
  | None =>
      match s with
      | "" => ""
      | String c s' => String c (replace_first re f (S pos) s')
      end
  end.

(** [str.replace(re, f)] for a pattern with the [g] flag: matches are
    replaced from left to right, each search starting where the previous
    match ended (one code unit further after an empty match).  [skip] counts
    the code units of the last match that are still to be passed over. *)
Fixpoint replace_all (re : nat -> string -> option string) (f : string -> string)
    (skip pos : nat) (s : string) {struct s} : string :=
  match skip with
  | S k =>
      match s with
      | "" => ""
      | String _ s' => replace_all re f k (S pos) s'
      end
  | O =>
      match re pos s with
      | Some m =>
          f m +:+
          match s with
          | "" => ""
          | String c s' =>
              match String.length m with
              | O => String c (replace_all re f 0 (S pos) s')
              | S k => replace_all re f k (S pos) s'
              end
          end
      | None =>
          match s with
          | "" => ""
          | String c s' => String c (replace_all re f 0 (S pos) s')
          end
      end
  end.

(** [str.match(re)] for a pattern without the [g] flag: the match at the
    leftmost index that has one. *)
Fixpoint exec {A} (re : nat -> string -> option A) (pos : nat) (s : string) : option A :=
  match re pos s with
  | Some r => Some r
  | None =>
      match s with
      | "" => None
      | String _ s' => exec re (S pos) s'
      end
  end.

(** ** Name derivation (both programs) *)

(** [/-/] and [/-/g]. *)
Definition hyphenRegex (pos : nat) (s : string) : option string :=
  lit "-" s (fun rest => Some (consumed s rest)).

(** [/(^\w|-\w)/g]: a word character at index 0, or a hyphen and a word
    character anywhere. *)
Definition wordStartRegex (pos : nat) (s : string) : option string :=
  alt (fun s k => if pos =? 0 then cls is_word s k else None)
      (fun s k => lit "-" s (fun s1 => cls is_word s1 k))
      s (fun rest => Some (consumed s rest)).

Definition clearAndUpper (text : string) : string :=
  toUpperCase (replace_first hyphenRegex (fun _ => "") 0 text).

Definition toPascalCase (str : string) : string :=
  replace_all hyphenRegex (fun _ => "") 0 0
    (replace_all wordStartRegex clearAndUpper 0 0 str) +:+ "Icon".

(** The pattern ['.svg'] of [fileName.replace('.svg', '')] is a string, so
    only its first occurrence is replaced. *)
Definition svgLiteral (pos : nat) (s : string) : option string :=
  lit ".svg" s (fun rest => Some (consumed s rest)).

Definition getFileNameFromUrl (url : string) : string :=
  let fileName :=
    substring url (lastIndexOf url "/" + 1) (Z.of_nat (String.length url)) in
  replace_first svgLiteral (fun _ => "") 0 fileName.

(** ** The world of a run

    [http] is what the network answers to a GET of a URL, [denied] the paths
    the file system refuses to create or write.  Both are fixed during a
    run.  [files] maps the path of every regular file to its text. *)

Record DirEntry := { name : string; download_url : string }.

(** An array entry at which the callback of [files.forEach] throws: the
    entry is [null]; it has no property [name] (an empty object, a number,
    a string); its [name] is [null]; its [name] is another value that is not
    a string. *)
Inductive BadEntry :=
| NullEntry
| NoName
| NullName
| NameNotString.

(** [response.data], a string or a parsed JSON value: a string; an array
    whose entries all have the type the callback declares for them, a
    string [name] and a string [download_url]; [null]; an array with an
    entry at which the callback throws, given by the entries [before] the
    first such entry and that entry (what follows it is never read); or a
    number, a boolean or an object.  An entry whose name does not end in
    [.svg] is never asked for its [download_url], so any string stands for
    it.  Not represented is an array in which an entry named [*.svg] has a
    [download_url] that is not a string: the result, declared [string[]],
    would hold a value that is not a string. *)
Inductive Body :=
| Text (s : string)
| Listing (l : list DirEntry)
| Null
| Malformed (before : list DirEntry) (bad : BadEntry)
| Other.

Inductive HttpReply :=
| Response (status : nat) (data : Body)
| NoResponse.

Inductive Exn :=
| AxiosError (url : string) (status : option nat)
| TypeError (msg : string)
| FsError (syscall path : string)
| LibraryError (lib : string).

Inductive LogEntry :=
| ConsoleLog (msg : string)
| ConsoleError (msg : string) (e : option Exn).

Record World := mkWorld {
  cwd : string;
  http : string -> HttpReply;
  denied : string -> bool;
  files : gmap string string;
  dirs : gset string;
  console : list LogEntry
}.

Definition with_files (f : gmap string string) (w : World) : World :=
  mkWorld (cwd w) (http w) (denied w) f (dirs w) (console w).
Definition with_dirs (d : gset string) (w : World) : World :=
  mkWorld (cwd w) (http w) (denied w) (files w) d (console w).
Definition with_console (c : list LogEntry) (w : World) : World :=
  mkWorld (cwd w) (http w) (denied w) (files w) (dirs w) c.

(** ** Computations that read and change the world and may throw *)

Inductive Result (A : Type) :=
| Ok (a : A)
| Throw (e : Exn).
Arguments Ok {A} a.
Arguments Throw {A} e.

Definition IO (A : Type) : Type := World -> Result A * World.

Definition ret {A} (a : A) : IO A := fun w => (Ok a, w).
Definition throw {A} (e : Exn) : IO A := fun w => (Throw e, w).

Definition bind {A B} (m : IO A) (k : A -> IO B) : IO B :=
  fun w =>
    match m w with
    | (Ok a, w') => k a w'
    | (Throw e, w') => (Throw e, w')
    end.

(** [try { m } catch (e) { h e }] *)
Definition try_catch {A} (m : IO A) (h : Exn -> IO A) : IO A :=
  fun w =>
    match m w with
    | (Ok a, w') => (Ok a, w')
    | (Throw e, w') => h e w'
    end.

Declare Scope io_scope.
Delimit Scope io_scope with io.
Bind Scope io_scope with IO.
Notation "x <- m ;; k" := (bind m (fun x => k))
  (at level 100, m at next level, k at level 200, right associativity) : io_scope.
Notation "m ;; k" := (bind m (fun _ => k))
  (at level 100, k at level 200, right associativity) : io_scope.
Local Open Scope io_scope.

(** [for (const x of l) { body x }] *)
Fixpoint for_of {A} (l : list A) (body : A -> IO unit) : IO unit :=
  match l with
  | [] => ret tt
  | x :: l' => body x ;; for_of l' body
  end.

(** *** Node and axios *)

Definition console_log (msg : string) : IO unit :=
  fun w => (Ok tt, with_console (console w ++ [ConsoleLog msg]) w).

Definition console_error (msg : string) (e : option Exn) : IO unit :=
  fun w => (Ok tt, with_console (console w ++ [ConsoleError msg e]) w).

(** [axios.get(url)] resolves with the response when its status is 2xx and
    rejects otherwise, as it does when there is no response at all. *)
Definition status_ok (st : nat) : bool := (200 <=? st) && (st <? 300).

Definition axios_get (url : string) : IO Body :=
  fun w =>
    match http w url with
    | Response st d =>
        if status_ok st then (Ok d, w) else (Throw (AxiosError url (Some st)), w)
    | NoResponse => (Throw (AxiosError url None), w)
    end.

Definition process_cwd : IO string := fun w => (Ok (cwd w), w).

Definition existsSync (p : string) : IO bool :=
  fun w => (Ok (bool_decide (p ∈ dirs w ∨ is_Some (files w !! p))), w).

(** [mkdirSync(p, { recursive: true })]; of the directories it creates only
    [p] itself is recorded. *)
Definition mkdirSync (p : string) : IO unit :=
  fun w =>
    if denied w p then (Throw (FsError "mkdir" p), w)
    else (Ok tt, with_dirs ({[ p ]} ∪ dirs w) w).

(** [writeFileSync(p, data)] creates the file or replaces its text. *)
Definition writeFileSync (p data : string) : IO unit :=
  fun w =>
    if denied w p then (Throw (FsError "open" p), w)
    else (Ok tt, with_files (<[ p := data ]> (files w)) w).

(** [join] and [dirname] of Node's [path] module. *)
Class PathModule := {
  join : list string -> string;
  dirname : string -> string
}.

(** [svgo]'s [optimize] (the [data] of its result, for the options the
    program passes), cheerio's [$('svg').html()] on the optimized markup
    ([None] is JavaScript's [null]) and [prettier.format]; a result [None]
    of [optimize] or [prettier_format] is a thrown error. *)
Class MarkupLibraries := {
  optimize : Body -> option string;
  svg_html : string -> option string;
  prettier_format : string -> option string
}.

Definition unlines (ls : list string) : string := String.concat nl ls.

Section Programs.
Context `{PathModule}.

Definition ensureDirectoryExistence (filePath : string) : IO bool :=
  let dir := dirname filePath in
  b <- existsSync dir ;;
  if b then ret true
  else mkdirSync dir ;; ret false.

(** The type error of calling the method [prop] of the value [d], written
    [obj] in the source, when [d] has no such method: [null] has no
    properties at all, any other value has none of that name. *)
Definition not_callable (obj prop : string) (d : Body) : Exn :=
  match d with
  | Null => TypeError ("Cannot read properties of null (reading '" +:+ prop +:+ "')")
  | _ => TypeError (obj +:+ "." +:+ prop +:+ " is not a function")
  end.

(** The type error of [file.name.endsWith('.svg')] at a bad entry. *)
Definition entry_error (bad : BadEntry) : Exn :=
  match bad with
  | NullEntry => TypeError "Cannot read properties of null (reading 'name')"
  | NoName => TypeError "Cannot read properties of undefined (reading 'endsWith')"
  | NullName => TypeError "Cannot read properties of null (reading 'endsWith')"
  | NameNotString => TypeError "file.name.endsWith is not a function"
  end.

(** [response.data] used as a string: [svgData.match(...)]. *)
Definition as_text (obj prop : string) (d : Body) : IO string :=
  match d with
  | Text s => ret s
  | _ => throw (not_callable obj prop d)
  end.

(** [response.data] used as an array: the entries [files.forEach(...)]
    runs through.  At a bad entry the callback throws; the URLs pushed
    before it are lost with the local array. *)
Definition as_array (obj prop : string) (d : Body) : IO (list DirEntry) :=
  match d with
  | Listing l => ret l
  | Malformed _ bad => throw (entry_error bad)
  | _ => throw (not_callable obj prop d)
  end.

(** *** The source lister (both programs) *)

Definition githubApiUrl (repo path : string) : string :=
  "https://api.github.com/repos/" +:+ repo +:+ "/contents/" +:+ path.

(** [files.forEach(file => { if (file.name.endsWith('.svg'))
    svgUrls.push(file.download_url) })] *)
Definition collectSvgUrls (files : list DirEntry) : list string :=
  fold_left
    (fun svgUrls file =>
       if endsWith (name file) ".svg" then svgUrls ++ [download_url file]
       else svgUrls)
    files [].

Definition fetchGithubSvgUrls (repo path : string) : IO (list string) :=
  try_catch
    (response <- axios_get (githubApiUrl repo path) ;;
     files <- as_array "files" "forEach" response ;;
     let svgUrls := collectSvgUrls files in
     console_log ("Total SVG files found: " +:+ string_of_nat (length svgUrls)) ;;
     ret svgUrls)
    (fun error =>
       console_error "Error fetching GitHub directory contents:" (Some error) ;;
       ret []).

End Programs.

(** *** The outline program (path only) *)

Module Outline.
Section Outline.
Context `{PathModule}.

(** The pattern of [svgData.match]: the literal [<path], one white-space
    character, a greedy run of characters other than [>], the literal [d=]
    with an opening double quote, group 1 as a greedy run of characters
    other than the double quote, and a closing double quote.  The result is
    the match and its group 1. *)
Definition pathRegex (pos : nat) (s : string) : option (string * string) :=
  lit "<path" s (fun s1 =>
  cls is_space s1 (fun s2 =>
  star (not_char ">") s2 (fun s3 =>
  lit ("d=" +:+ dq) s3 (fun s4 =>
  star (not_char (ascii_of_nat 34)) s4 (fun s5 =>
  lit dq s5 (fun s6 =>
  Some (consumed s s6, consumed s4 s5))))))).

Definition reactComponent (iconName ariaLabel pathData : string) : string :=
  unlines [
    "";
    "import { IconProps } from './types';";
    "";
    "export default function " +:+ iconName +:+ "(props: IconProps) {";
    "  return (";
    "    <svg";
    "      xmlns=" +:+ dq +:+ "http://www.w3.org/2000/svg" +:+ dq;
    "      fill=" +:+ dq +:+ "none" +:+ dq;
    "      viewBox=" +:+ dq +:+ "0 0 24 24" +:+ dq;
    "      strokeWidth={1.5}";
    "      stroke=" +:+ dq +:+ "currentColor" +:+ dq;
    "      className=" +:+ dq +:+ "arctic-icon-medium" +:+ dq;
    "      aria-label=" +:+ dq +:+ ariaLabel +:+ dq;
    "      {...props}";
    "    >";
    "      <path";
    "        strokeLinecap=" +:+ dq +:+ "round" +:+ dq;
    "        strokeLinejoin=" +:+ dq +:+ "round" +:+ dq;
    "        d=" +:+ dq +:+ pathData +:+ dq;
    "      />";
    "    </svg>";
    "  );";
    "}"
  ].

Definition outputPath (cwd iconName : string) : string :=
  join [cwd; "src"; "assets"; "icons"; iconName +:+ ".tsx"].

(** The body of the [try] block for one URL; [continue] ends it. *)
Definition convertOne (url : string) : IO unit :=
  console_log ("Fetching SVG from: " +:+ url) ;;
  let fileName := getFileNameFromUrl url in
  let iconName := toPascalCase fileName in
  let ariaLabel := fileName in
  response <- axios_get url ;;
  svgData <- as_text "svgData" "match" response ;;
  let pathMatch := exec pathRegex 0 svgData in
  match pathMatch with
  | None => console_error ("No path found in the SVG file: " +:+ fileName) None
  | Some (_, pathData) =>
      let reactComponent := reactComponent iconName ariaLabel pathData in
      cwd <- process_cwd ;;
      let outputPath := outputPath cwd iconName in
      ensureDirectoryExistence outputPath ;;
      writeFileSync outputPath (trim reactComponent) ;;
      console_log ("React component saved as " +:+ iconName +:+ ".tsx")
  end.

(** The body of the loop for one URL: the [try] block and its [catch]. *)
Definition convertItem (url : string) : IO unit :=
  try_catch (convertOne url)
    (fun error =>
       console_error ("Error fetching or processing the SVG for " +:+ url +:+ ":")
         (Some error)).

Definition convertSvgToReact (urls : list string) : IO unit :=
  console_log ("Processing " +:+ string_of_nat (length urls) +:+ " SVG files...") ;;
  for_of urls convertItem.

Definition processGithubSvgs : IO unit :=
  let repo := "tailwindlabs/heroicons" in
  let path := "src/24/outline" in
  svgUrls <- fetchGithubSvgUrls repo path ;;
  convertSvgToReact svgUrls.

End Outline.
End Outline.

(** *** The solid program (full markup) *)

Module Solid.
Section Solid.
Context `{PathModule} `{MarkupLibraries}.

Definition lib_call {A} (lib : string) (r : option A) : IO A :=
  match r with
  | Some a => ret a
  | None => throw (LibraryError lib)
  end.

(** A template literal prints [null] for a null value. *)
Definition interpolate (v : option string) : string :=
  match v with
  | Some s => s
  | None => "null"
  end.

Definition reactComponent (iconName ariaLabel : string) (svgElements : option string)
    : string :=
  unlines [
    "";
    "import { IconProps } from './types';";
    "";
    "export default function " +:+ iconName +:+ "(props: IconProps) {";
    "  return (";
    "    <svg";
    "      xmlns=" +:+ dq +:+ "http://www.w3.org/2000/svg" +:+ dq;
    "      fill=" +:+ dq +:+ "currentColor" +:+ dq;
    "      viewBox=" +:+ dq +:+ "0 0 24 24" +:+ dq;
    "      className=" +:+ dq +:+ "arctic-icon-medium solid" +:+ dq;
    "      aria-label=" +:+ dq +:+ ariaLabel +:+ dq;
    "      {...props}";
    "    >";
    "      " +:+ interpolate svgElements;
    "    </svg>";
    "  );";
    "}"
  ].

Definition outputPath (cwd iconName : string) : string :=
  join [cwd; "src"; "icons"; iconName +:+ ".tsx"].

(** The body of the [try] block for one URL. *)
Definition convertOne (url : string) : IO unit :=
  console_log ("Fetching SVG from: " +:+ url) ;;
  let fileName := getFileNameFromUrl url in
  let iconName := toPascalCase fileName in
  let ariaLabel := fileName in
  svgData <- axios_get url ;;
  optimizedSvg <- lib_call "svgo" (optimize svgData) ;;
  let svgElements := svg_html optimizedSvg in
  let reactComponent := reactComponent iconName ariaLabel svgElements in
  formattedCode <- lib_call "prettier" (prettier_format reactComponent) ;;
  cwd <- process_cwd ;;
  let outputPath := outputPath cwd iconName in
  ensureDirectoryExistence outputPath ;;
  writeFileSync outputPath formattedCode ;;
  console_log ("React component saved as " +:+ iconName +:+ ".tsx").

(** The body of the loop for one URL: the [try] block and its [catch]. *)
Definition convertItem (url : string) : IO unit :=
  try_catch (convertOne url)
    (fun error =>
       console_error ("Error fetching or processing the SVG for " +:+ url +:+ ":")
         (Some error)).

Definition convertSvgToReact (urls : list string) : IO unit :=
  console_log ("Processing " +:+ string_of_nat (length urls) +:+ " SVG files...") ;;
  for_of urls convertItem.

Definition processGithubSvgs : IO unit :=
  let repo := "tailwindlabs/heroicons" in
  let path := "src/24/solid" in
  svgUrls <- fetchGithubSvgUrls repo path ;;
  convertSvgToReact svgUrls.

End Solid.
End Solid.

(** ** Notions the properties are stated with *)

(** [sub] occurs in [s]. *)
Definition occurs (sub s : string) : Prop := exists a b, s = a +:+ sub +:+ b.

(** [sub] occurs in [s] right after [a] and nowhere before. *)
Definition first_occurrence (sub a s : string) : Prop :=
  (exists b, s = a +:+ sub +:+ b) /\
  forall a' b', s = a' +:+ sub +:+ b' -> String.length a <= String.length a'.

(** [seg] is what follows the last slash of [url], or all of [url] when it has
    no slash. *)
Definition last_segment (url seg : string) : Prop :=
  sall (not_char "/") seg = true /\ (url = seg \/ exists dir, url = dir +:+ "/" +:+ seg).

(** A word of lowercase letters, and a word with its first letter in upper
    case. *)
Definition lower_word (w : string) : bool :=
  negb (bool_decide (w = "")) && sall is_lower w.

Definition capitalize (w : string) : string :=
  match w with
  | "" => ""
  | String c w' => String (upper c) w'
  end.

(** Hyphens are dropped; the first character and every character that
    follows a hyphen is put in upper case. *)
Fixpoint camel (up : bool) (s : string) : string :=
  match s with
  | "" => ""
  | String c s' =>
      if is_char "-" c then camel true s'
      else String (if up then upper c else c) (camel false s')
  end.

Fixpoint sfilter (p : ascii -> bool) (s : string) : string :=
  match s with
  | "" => ""
  | String c s' => if p c then String c (sfilter p s') else sfilter p s'
  end.

(** [s.includes(sub)] *)
Fixpoint includes (s sub : string) : bool :=
  match strip_prefix sub s with
  | Some _ => true
  | None =>
      match s with
      | "" => false
      | String _ s' => includes s' sub
      end
  end.

(** The first character of a string, if any, is its own upper case. *)
Definition head_upper (s : string) : Prop :=
  match s with
  | "" => True
  | String c _ => upper c = c
  end.

(** The request for [url] fails: there is no response, or its status is
    outside 2xx. *)
Definition request_fails (w : World) (url : string) : Prop :=
  http w url = NoResponse \/
  exists st d, http w url = Response st d /\ status_ok st = false.

(** [w'] is a later state of the run that started in [w]: the surroundings
    are the same, no file has gone and every log entry is still there. *)
Definition grows (w w' : World) : Prop :=
  cwd w' = cwd w /\ http w' = http w /\ denied w' = denied w
  /\ dom (files w) ⊆ dom (files w')
  /\ forall e, e ∈ console w -> e ∈ console w'.

(** The log entries of the loop (the same in both programs). *)
Definition log_fetching (url : string) : LogEntry :=
  ConsoleLog ("Fetching SVG from: " +:+ url).
Definition log_saved (iconName : string) : LogEntry :=
  ConsoleLog ("React component saved as " +:+ iconName +:+ ".tsx").
Definition log_no_path (fileName : string) : LogEntry :=
  ConsoleError ("No path found in the SVG file: " +:+ fileName) None.
Definition log_item_error (url : string) (e : Exn) : LogEntry :=
  ConsoleError ("Error fetching or processing the SVG for " +:+ url +:+ ":") (Some e).
Definition log_processing (n : nat) : LogEntry :=
  ConsoleLog ("Processing " +:+ string_of_nat n +:+ " SVG files...").
Definition log_total (n : nat) : LogEntry :=
  ConsoleLog ("Total SVG files found: " +:+ string_of_nat n).
Definition log_listing_error (e : Exn) : LogEntry :=
  ConsoleError "Error fetching GitHub directory contents:" (Some e).

(** The world after some more log entries. *)
Definition logged (es : list LogEntry) (w : World) : World :=
  with_console (console w ++ es) w.

(** The name and the output file of the icon of a URL. *)
Definition iconNameOf (url : string) : string := toPascalCase (getFileNameFromUrl url).

Section WriteConditions.
Context `{PathModule} `{MarkupLibraries}.

(** The conditions under which the iteration for [url] writes its file. *)
Definition outline_writes (w : World) (url : string) : Prop :=
  exists st body m d,
    http w url = Response st (Text body) /\ status_ok st = true
    /\ exec Outline.pathRegex 0 body = Some (m, d)
    /\ denied w (dirname (Outline.outputPath (cwd w) (iconNameOf url))) = false
    /\ denied w (Outline.outputPath (cwd w) (iconNameOf url)) = false.

Definition solid_writes (w : World) (url : string) : Prop :=
  exists st data optimized code,
    http w url = Response st data /\ status_ok st = true
    /\ optimize data = Some optimized
    /\ prettier_format
         (Solid.reactComponent (iconNameOf url) (getFileNameFromUrl url) (svg_html optimized))
       = Some code
    /\ denied w (dirname (Solid.outputPath (cwd w) (iconNameOf url))) = false
    /\ denied w (Solid.outputPath (cwd w) (iconNameOf url)) = false.

End WriteConditions.

(** The longest prefix of [s] whose characters all satisfy [p]. *)
Fixpoint span (p : ascii -> bool) (s : string) : string :=
  match s with
  | "" => ""
  | String c s' => if p c then String c (span p s') else ""
  end.

(** [b] does not go on with a character of the class. *)
Definition stops (p : ascii -> bool) (b : string) : Prop :=
  match b with
  | "" => True
  | String c _ => p c = false
  end.

(** A sample [path] module and a sample world for running the programs. *)
Definition sample_paths : PathModule :=
  {| join := String.concat "/";
     dirname := fun p => substring p 0 (lastIndexOf p "/") |}.

Definition sample_world (net : string -> HttpReply) : World :=
  mkWorld "/repo" net (fun _ => false) ∅ ∅ [].

Definition sample_libraries : MarkupLibraries :=
  {| optimize := fun d => match d with Text s => Some s | _ => None end;
     svg_html := fun s => Some s;
     prettier_format := fun s => Some s |}.

Definition svg_of (d : string) : string :=
  "<svg><path d=" +:+ dq +:+ d +:+ dq +:+ "/></svg>".

(** A listing of three entries, one in each spelling of the extension. *)
Definition sample_listing : list DirEntry :=
  [ {| name := "a.svg"; download_url := "https://host/icons/a.svg" |};
    {| name := "b.png"; download_url := "https://host/icons/b.png" |};
    {| name := "c.SVG"; download_url := "https://host/icons/c.SVG" |} ].

Definition listing_net (u : string) : HttpReply :=
  if bool_decide (u = githubApiUrl "owner/name" "icons")
  then Response 200 (Listing sample_listing)
  else NoResponse.

(** The listing request is answered with status 503. *)
Definition unavailable_net (u : string) : HttpReply := Response 503 Other.

(** One listed file [check.svg] with one path. *)
Definition check_url : string :=
  "https://raw.githubusercontent.com/tailwindlabs/heroicons/master/src/24/outline/check.svg".

Definition check_net (u : string) : HttpReply :=
  if bool_decide (u = githubApiUrl "tailwindlabs/heroicons" "src/24/outline")
  then Response 200 (Listing [ {| name := "check.svg"; download_url := check_url |} ])
  else if bool_decide (u = check_url)
  then Response 200 (Text (svg_of "M1 1L2 2"))
  else NoResponse.

(** A batch of URLs: [b.svg] cannot be fetched and [empty.svg] has no path. *)
Definition batch_net (u : string) : HttpReply :=
  if bool_decide (u = "https://host/icons/a.svg") then Response 200 (Text (svg_of "M1 1"))
  else if bool_decide (u = "https://host/icons/c.svg") then Response 200 (Text (svg_of "M3 3"))
  else if bool_decide (u = "https://host/icons/empty.svg") then Response 200 (Text "<svg></svg>")
  else NoResponse.

(** Markup with two paths, and a world that serves it. *)
Definition two_paths (d1 d2 : string) : string :=
  "<svg><path d=" +:+ dq +:+ d1 +:+ dq +:+ "/><path d=" +:+ dq +:+ d2 +:+ dq +:+ "/></svg>".

(** Markup whose first path has an [id] attribute after its [d] attribute. *)
Definition id_after_d : string :=
  "<svg><path d=" +:+ dq +:+ "M1 1" +:+ dq +:+ " id=" +:+ dq +:+ "p" +:+ dq
  +:+ "/><path d=" +:+ dq +:+ "M2 2" +:+ dq +:+ "/></svg>".

Definition markup_net (body : string) (u : string) : HttpReply :=
  if bool_decide (u = "https://host/icons/two.svg")
  then Response 200 (Text body)
  else NoResponse.

(** The log of a batch: for each URL its announcement and one entry for the
    outcome of its iteration. *)
Definition batch_log (urls : list string) (outcomes : list LogEntry) : list LogEntry :=
  concat (zip_with (fun url e => [log_fetching url; e]) urls outcomes).

(** The path [p] is there, as [existsSync] sees it. *)
Definition path_exists (w : World) (p : string) : Prop :=
  p ∈ dirs w \/ is_Some (files w !! p).

(** Two URLs with the same file name, and a world in which one output file
    cannot be written. *)
Definition collision_net (u : string) : HttpReply :=
  if bool_decide (u = "https://host/solid/a.svg") then Response 200 (Text (svg_of "M1 1"))
  else if bool_decide (u = "https://host/outline/a.svg") then Response 200 (Text (svg_of "M2 2"))
  else NoResponse.

Definition read_only_world (net : string -> HttpReply) : World :=
  mkWorld "/repo" net (fun p => bool_decide (p = "/repo/src/assets/icons/AIcon.tsx")) ∅ ∅ [].

(** Libraries of which [svgo] rejects every input. *)
Definition rejecting_libraries : MarkupLibraries :=
  {| optimize := fun _ => None;
     svg_html := fun s => Some s;
     prettier_format := fun s => Some s |}.

(** The surroundings of a run are those of [w]: working directory, network
    and permissions. *)
Definition same_surroundings (w w' : World) : Prop :=
  cwd w' = cwd w /\ http w' = http w /\ denied w' = denied w.

(** Every request is answered with status 200 and data that are no text. *)
Definition json_net (u : string) : HttpReply := Response 200 Other.

(** Markup whose path has its [d] attribute in single quotes. *)
Definition single_quoted : string := "<svg><path d='M1 1'/></svg>".

(** Libraries of which cheerio finds no [svg] element. *)
Definition rootless_libraries : MarkupLibraries :=
  {| optimize := fun d => match d with Text s => Some s | _ => None end;
     svg_html := fun _ => None;
     prettier_format := fun s => Some s |}.

(** * Properties *)

(** ** Strings *)

Ltac ascii_cases c := destruct c as [[|] [|] [|] [|] [|] [|] [|] [|]].

Lemma sapp_nil_r (s : string) : s +:+ "" = s.
Proof. induction s as [|c s IH]; simpl; [reflexivity | now rewrite IH]. Qed.

Lemma sapp_assoc (a b c : string) : (a +:+ b) +:+ c = a +:+ b +:+ c.
Proof. induction a as [|x a IH]; simpl; [reflexivity | now rewrite IH]. Qed.

Lemma sapp_one c s : String c "" +:+ s = String c s.
Proof. reflexivity. Qed.

Lemma sapp_cons c a b : String c a +:+ b = String c (a +:+ b).
Proof. reflexivity. Qed.

Lemma slength_app (a b : string) :
  String.length (a +:+ b) = String.length a + String.length b.
Proof. induction a as [|x a IH]; simpl; [reflexivity | now rewrite IH]. Qed.

Lemma sdrop_app (a b : string) : sdrop (String.length a) (a +:+ b) = b.
Proof. induction a as [|x a IH]; simpl; [now destruct b | exact IH]. Qed.

Lemma stake_app (a b : string) : stake (String.length a) (a +:+ b) = a.
Proof. induction a as [|x a IH]; simpl; [now destruct b | now rewrite IH]. Qed.

Lemma stake_all (s : string) : stake (String.length s) s = s.
Proof. induction s as [|x s IH]; simpl; [reflexivity | now rewrite IH]. Qed.

Lemma sall_app (p : ascii -> bool) (a b : string) :
  sall p (a +:+ b) = sall p a && sall p b.
Proof.
  induction a as [|x a IH]; simpl; [reflexivity|].
  rewrite IH. now destruct (p x).
Qed.

Lemma consumed_app (a b : string) : consumed (a +:+ b) b = a.
Proof.
  unfold consumed. rewrite slength_app.
  replace (String.length a + String.length b - String.length b)
    with (String.length a) by lia.
  apply stake_app.
Qed.

Lemma consumed_cons (c : ascii) (s : string) : consumed (String c s) s = String c "".
Proof. exact (consumed_app (String c "") s). Qed.

Lemma consumed_cons2 (c d : ascii) (s : string) :
  consumed (String c (String d s)) s = String c (String d "").
Proof. exact (consumed_app (String c (String d "")) s). Qed.

Lemma strip_prefix_Some (p s r : string) : strip_prefix p s = Some r <-> s = p +:+ r.
Proof.
  revert s. induction p as [|a p IH]; intros s; simpl.
  - split; congruence.
  - destruct s as [|b s]; [split; discriminate|].
    case_bool_decide as E.
    + subst b. rewrite IH. split; congruence.
    + split; [discriminate | intros [= -> _]; congruence].
Qed.

Lemma strip_prefix_app (p r : string) : strip_prefix p (p +:+ r) = Some r.
Proof. now apply strip_prefix_Some. Qed.

(** ** Characters *)

Lemma is_word_not_hyphen (c : ascii) : is_word c = true -> is_char "-" c = false.
Proof. ascii_cases c; vm_compute; congruence. Qed.

Lemma is_lower_is_word (c : ascii) : is_lower c = true -> is_word c = true.
Proof. ascii_cases c; vm_compute; congruence. Qed.

Lemma upper_not_hyphen (c : ascii) : is_char "-" c = false -> is_char "-" (upper c) = false.
Proof. ascii_cases c; vm_compute; congruence. Qed.

Lemma upper_idem (c : ascii) : upper (upper c) = upper c.
Proof. ascii_cases c; reflexivity. Qed.

Lemma upper_not_word (c : ascii) : is_word c = false -> upper c = c.
Proof. ascii_cases c; vm_compute; congruence. Qed.

(** ** The two replacements of [toPascalCase] *)

Lemma replace_all_skip re f k pos c s :
  replace_all re f (S k) pos (String c s) = replace_all re f k (S pos) s.
Proof. reflexivity. Qed.

Lemma replace_all_none re f pos c s :
  re pos (String c s) = None ->
  replace_all re f 0 pos (String c s) = String c (replace_all re f 0 (S pos) s).
Proof. intros E. simpl. now rewrite E. Qed.

Lemma replace_all_some re f pos c s m k :
  re pos (String c s) = Some m -> String.length m = S k ->
  replace_all re f 0 pos (String c s) = f m +:+ replace_all re f k (S pos) s.
Proof. intros E L. simpl. now rewrite E, L. Qed.

Lemma hyphenRegex_cons pos c s :
  hyphenRegex pos (String c s) = if is_char "-" c then Some (String c "") else None.
Proof.
  unfold hyphenRegex, lit, is_char. simpl.
  case_bool_decide; [|reflexivity]. now rewrite consumed_cons.
Qed.

Lemma wordStartRegex_cons pos c s :
  wordStartRegex pos (String c s) =
  if (pos =? 0) && is_word c then Some (String c "")
  else if is_char "-" c then
    match s with
    | String d _ => if is_word d then Some (String c (String d "")) else None
    | "" => None
    end
  else None.
Proof.
  unfold wordStartRegex, alt, lit, cls, is_char. simpl.
  destruct (pos =? 0); simpl.
  - destruct (is_word c); simpl; [now rewrite consumed_cons|].
    case_bool_decide; [|reflexivity].
    destruct s as [|d s]; [reflexivity|]. destruct (is_word d); [|reflexivity].
    now rewrite consumed_cons2.
  - case_bool_decide; [|reflexivity].
    destruct s as [|d s]; [reflexivity|]. destruct (is_word d); [|reflexivity].
    now rewrite consumed_cons2.
Qed.

Lemma clearAndUpper_one c :
  is_char "-" c = false -> clearAndUpper (String c "") = String (upper c) "".
Proof.
  intros E. unfold clearAndUpper. simpl. rewrite hyphenRegex_cons, E. reflexivity.
Qed.

Lemma clearAndUpper_two c d :
  is_char "-" c = true -> clearAndUpper (String c (String d "")) = String (upper d) "".
Proof.
  intros E. unfold clearAndUpper. simpl. rewrite hyphenRegex_cons, E. reflexivity.
Qed.

(** [str.replace(/-/g, '')] drops the hyphens. *)
Lemma strip_hyphens pos s :
  replace_all hyphenRegex (fun _ => "") 0 pos s = sfilter (not_char "-") s.
Proof.
  revert pos. induction s as [|c s IH]; intros pos; [reflexivity|].
  pose proof (hyphenRegex_cons pos c s) as E. unfold not_char. simpl sfilter.
  destruct (is_char "-" c).
  - rewrite (replace_all_some _ _ _ _ _ _ 0 E eq_refl). simpl. apply IH.
  - rewrite (replace_all_none _ _ _ _ _ E). simpl. now rewrite IH.
Qed.

Lemma sfilter_cons p c s :
  sfilter p (String c s) = if p c then String c (sfilter p s) else sfilter p s.
Proof. reflexivity. Qed.

Lemma camel_cons up c s :
  camel up (String c s) =
  if is_char "-" c then camel true s
  else String (if up then upper c else c) (camel false s).
Proof. reflexivity. Qed.

Lemma not_hyphen_eq c : not_char "-" c = negb (is_char "-" c).
Proof. reflexivity. Qed.

(** The two replacements together: [camel]. *)
Lemma replace_words_camel s pos :
  sfilter (not_char "-") (replace_all wordStartRegex clearAndUpper 0 pos s)
  = camel (pos =? 0) s.
Proof.
  revert pos. induction s as [|c s IH]; intros pos.
  { simpl. unfold wordStartRegex, alt. now destruct (pos =? 0). }
  pose proof (wordStartRegex_cons pos c s) as E.
  rewrite camel_cons.
  destruct ((pos =? 0) && is_word c) eqn:E0.
  - (* a word character at index 0 *)
    apply andb_prop in E0 as [Ep Hw].
    pose proof (is_word_not_hyphen c Hw) as Hc.
    rewrite (replace_all_some _ _ _ _ _ _ 0 E eq_refl), (clearAndUpper_one c Hc).
    rewrite sapp_one, sfilter_cons, not_hyphen_eq, (upper_not_hyphen c Hc), Hc, Ep.
    cbn [negb]. f_equal. apply (IH (S pos)).
  - destruct (is_char "-" c) eqn:Hc.
    + destruct s as [|d s].
      * rewrite (replace_all_none _ _ _ _ _ E), sfilter_cons, not_hyphen_eq, Hc.
        reflexivity.
      * specialize (IH (S pos)). rewrite camel_cons in IH. cbn [Nat.eqb] in IH.
        destruct (is_word d) eqn:Hd.
        -- (* a hyphen and a word character *)
           pose proof (is_word_not_hyphen d Hd) as Hd'.
           rewrite (replace_all_some _ _ _ _ _ _ 1 E eq_refl), (clearAndUpper_two c d Hc).
           rewrite replace_all_skip, sapp_one, sfilter_cons, not_hyphen_eq.
           rewrite (upper_not_hyphen d Hd'), camel_cons, Hd'. cbn [negb]. f_equal.
           rewrite replace_all_none in IH
             by (rewrite wordStartRegex_cons, Hd'; reflexivity).
           rewrite sfilter_cons, not_hyphen_eq, Hd' in IH. cbn [negb] in IH.
           now injection IH.
        -- rewrite (replace_all_none _ _ _ _ _ E), sfilter_cons, not_hyphen_eq, Hc.
           cbn [negb]. rewrite IH, camel_cons.
           destruct (is_char "-" d); [reflexivity|].
           now rewrite (upper_not_word d Hd).
    + rewrite (replace_all_none _ _ _ _ _ E), sfilter_cons, not_hyphen_eq, Hc.
      cbn [negb]. rewrite (IH (S pos)). cbn [Nat.eqb].
      destruct (pos =? 0) eqn:Ep; [|reflexivity].
      cbn [andb] in E0. now rewrite (upper_not_word c E0).
Qed.

Lemma toPascalCase_camel s : toPascalCase s = camel true s +:+ "Icon".
Proof.
  unfold toPascalCase. rewrite strip_hyphens. now rewrite (replace_words_camel s 0).
Qed.

(** ** Name derivation *)

Lemma camel_false_lower w r :
  sall is_lower w = true -> camel false (w +:+ r) = w +:+ camel false r.
Proof.
  induction w as [|c w IH]; simpl; [reflexivity|].
  intros [Hc Hw]%andb_prop.
  rewrite (is_word_not_hyphen c (is_lower_is_word c Hc)), (IH Hw). reflexivity.
Qed.

Lemma camel_true_word w r :
  lower_word w = true -> camel true (w +:+ r) = capitalize w +:+ camel false r.
Proof.
  unfold lower_word. destruct w as [|c w]; [discriminate|]. simpl.
  intros [Hc Hw]%andb_prop.
  rewrite (is_word_not_hyphen c (is_lower_is_word c Hc)).
  now rewrite (camel_false_lower w r Hw).
Qed.

Lemma camel_hyphenated words :
  forallb lower_word words = true ->
  camel true (String.concat "-" words) = String.concat "" (map capitalize words).
Proof.
  induction words as [|w ws IH]; [reflexivity|].
  intros [Hw Hws]%andb_prop. specialize (IH Hws).
  destruct ws as [|w2 ws].
  - simpl. rewrite <- (sapp_nil_r w) at 1. rewrite (camel_true_word w "" Hw).
    apply sapp_nil_r.
  - change (String.concat "-" (w :: w2 :: ws))
      with (w +:+ String "-" (String.concat "-" (w2 :: ws))).
    rewrite (camel_true_word w _ Hw), camel_cons. cbn [is_char bool_decide].
    change (is_char "-" "-") with true. cbv iota. rewrite IH. reflexivity.
Qed.

Lemma camel_no_hyphen up s : sall (not_char "-") (camel up s) = true.
Proof.
  revert up. induction s as [|c s IH]; intros up; [reflexivity|].
  rewrite camel_cons. destruct (is_char "-" c) eqn:Hc; [apply IH|].
  simpl. rewrite IH, andb_true_r, not_hyphen_eq.
  destruct up; [now rewrite (upper_not_hyphen c Hc) | now rewrite Hc].
Qed.

Lemma camel_head_upper s : head_upper (camel true s +:+ "Icon").
Proof.
  induction s as [|c s IH]; [reflexivity|].
  rewrite camel_cons. destruct (is_char "-" c); [exact IH|].
  simpl. apply upper_idem.
Qed.

Lemma camel_false_id s : sall (not_char "-") s = true -> camel false s = s.
Proof.
  induction s as [|c s IH]; [reflexivity|]. simpl.
  intros [Hc Hs]%andb_prop. rewrite not_hyphen_eq in Hc.
  apply negb_true_iff in Hc. now rewrite Hc, (IH Hs).
Qed.

Lemma camel_true_id s :
  sall (not_char "-") s = true -> head_upper s -> camel true s = s.
Proof.
  destruct s as [|c s]; [reflexivity|]. simpl.
  intros [Hc Hs]%andb_prop Hu. rewrite not_hyphen_eq in Hc.
  apply negb_true_iff in Hc. now rewrite Hc, Hu, (camel_false_id s Hs).
Qed.

(** C2.  For a stem of lowercase words joined by hyphens, [toPascalCase]
    returns the words, each with its first letter in upper case, one after the
    other and followed by one [Icon]; no hyphen is left in the result. *)
Theorem toPascalCase_hyphenated (words : list string) :
  forallb lower_word words = true ->
  toPascalCase (String.concat "-" words)
  = String.concat "" (map capitalize words) +:+ "Icon"
  /\ sall (not_char "-") (toPascalCase (String.concat "-" words)) = true.
Proof.
  intros Hw. rewrite toPascalCase_camel. split.
  - now rewrite (camel_hyphenated words Hw).
  - rewrite sall_app, camel_no_hyphen. reflexivity.
Qed.

Lemma toPascalCase_hyphenated_witness :
  forallb lower_word ["arrow"; "left"] = true
  /\ toPascalCase "arrow-left" = "ArrowLeftIcon".
Proof.
  split; [reflexivity|].
  exact (proj1 (toPascalCase_hyphenated ["arrow"; "left"] eq_refl)).
Defined.

(** C8, as the code has it.  [toPascalCase] appends [Icon] whatever its
    input is: applied to one of its own results it appends the suffix a
    second time and changes nothing else. *)
Theorem toPascalCase_twice (s : string) :
  toPascalCase (toPascalCase s) = toPascalCase s +:+ "Icon".
Proof.
  rewrite (toPascalCase_camel (toPascalCase s)). f_equal.
  rewrite toPascalCase_camel. apply camel_true_id.
  - rewrite sall_app, camel_no_hyphen. reflexivity.
  - apply camel_head_upper.
Qed.

(** C8 as stated fails: the name derived from [check], derived again, has the
    suffix twice. *)
Lemma toPascalCase_not_idempotent :
  toPascalCase "check" = "CheckIcon"
  /\ toPascalCase (toPascalCase "check") = "CheckIconIcon"
  /\ toPascalCase (toPascalCase "check") <> toPascalCase "check".
Proof. repeat split. discriminate. Qed.

(** ** File name of a URL *)

Lemma strip_slash c s :
  strip_prefix "/" (String c s) = if is_char "/" c then Some s else None.
Proof. reflexivity. Qed.

Lemma lastIndexOf_from_none i s :
  sall (not_char "/") s = true -> lastIndexOf_from i s "/" = (-1)%Z.
Proof.
  revert i. induction s as [|c s IH]; intros i; [reflexivity|].
  intros [Hc Hs]%andb_prop. apply negb_true_iff in Hc.
  cbn [lastIndexOf_from]. rewrite (IH (i + 1)%Z Hs), strip_slash, Hc. reflexivity.
Qed.

Lemma lastIndexOf_from_last i dir seg :
  (0 <= i)%Z -> sall (not_char "/") seg = true ->
  lastIndexOf_from i (dir +:+ "/" +:+ seg) "/" = (i + Z.of_nat (String.length dir))%Z.
Proof.
  intros Hi Hs. revert i Hi. induction dir as [|c dir IH]; intros i Hi.
  - cbn [String.append lastIndexOf_from String.length].
    rewrite (lastIndexOf_from_none (i + 1) seg Hs), strip_slash.
    change (is_char "/" "/") with true. cbn. lia.
  - rewrite sapp_cons. cbn [lastIndexOf_from String.length].
    rewrite (IH (i + 1)%Z) by lia.
    destruct (0 <=? i + 1 + Z.of_nat (String.length dir))%Z eqn:E; [lia|].
    apply Z.leb_gt in E. lia.
Qed.

Lemma substring_suffix a b :
  substring (a +:+ b) (Z.of_nat (String.length a)) (Z.of_nat (String.length (a +:+ b))) = b.
Proof.
  unfold substring, clamp. cbv zeta. rewrite slength_app.
  set (la := String.length a). set (lb := String.length b).
  replace (Z.max 0 (Z.min (Z.of_nat la) (Z.of_nat (la + lb)))) with (Z.of_nat la) by lia.
  replace (Z.max 0 (Z.min (Z.of_nat (la + lb)) (Z.of_nat (la + lb))))
    with (Z.of_nat (la + lb)) by lia.
  replace (Z.min (Z.of_nat la) (Z.of_nat (la + lb))) with (Z.of_nat la) by lia.
  replace (Z.max (Z.of_nat la) (Z.of_nat (la + lb))) with (Z.of_nat (la + lb)) by lia.
  replace (Z.to_nat (Z.of_nat (la + lb) - Z.of_nat la)) with lb by lia.
  rewrite Nat2Z.id. subst la lb. rewrite sdrop_app. apply stake_all.
Qed.

Lemma last_segment_substring url seg :
  last_segment url seg ->
  substring url (lastIndexOf url "/" + 1) (Z.of_nat (String.length url)) = seg.
Proof.
  intros [Hs [-> | [dir ->]]]; unfold lastIndexOf.
  - rewrite (lastIndexOf_from_none 0 seg Hs). exact (substring_suffix "" seg).
  - rewrite (lastIndexOf_from_last 0 dir seg) by (lia || exact Hs).
    rewrite <- (sapp_assoc dir "/" seg).
    replace (0 + Z.of_nat (String.length dir) + 1)%Z
      with (Z.of_nat (String.length (dir +:+ "/"))) by (rewrite slength_app; simpl; lia).
    apply substring_suffix.
Qed.

Lemma replace_first_some re f pos s m :
  re pos s = Some m -> replace_first re f pos s = f m +:+ sdrop (String.length m) s.
Proof. intros E. destruct s; simpl; now rewrite E. Qed.

Lemma replace_first_none re f pos c s :
  re pos (String c s) = None ->
  replace_first re f pos (String c s) = String c (replace_first re f (S pos) s).
Proof. intros E. simpl. now rewrite E. Qed.

Lemma svgLiteral_eq pos s :
  svgLiteral pos s =
  match strip_prefix ".svg" s with Some _ => Some ".svg" | None => None end.
Proof.
  unfold svgLiteral, lit. destruct (strip_prefix ".svg" s) as [r|] eqn:E; [|reflexivity].
  apply strip_prefix_Some in E. subst s. now rewrite (consumed_app ".svg" r).
Qed.

Lemma replace_first_svg pos pre post :
  first_occurrence ".svg" pre (pre +:+ ".svg" +:+ post) ->
  replace_first svgLiteral (fun _ => "") pos (pre +:+ ".svg" +:+ post) = pre +:+ post.
Proof.
  intros [_ Hfirst]. revert pos. induction pre as [|c pre IH]; intros pos.
  - change ("" +:+ ".svg" +:+ post) with (".svg" +:+ post).
    rewrite (replace_first_some _ _ _ _ ".svg")
      by (now rewrite svgLiteral_eq, (strip_prefix_app ".svg" post)).
    exact (sdrop_app ".svg" post).
  - assert (Hhere : svgLiteral pos (String c pre +:+ ".svg" +:+ post) = None).
    { rewrite svgLiteral_eq.
      destruct (strip_prefix ".svg" _) as [r|] eqn:E; [|reflexivity].
      apply strip_prefix_Some in E. specialize (Hfirst "" r E). simpl in Hfirst. lia. }
    change (String c pre +:+ ".svg" +:+ post)
      with (String c (pre +:+ ".svg" +:+ post)) in *.
    change (String c pre +:+ post) with (String c (pre +:+ post)).
    rewrite (replace_first_none _ _ _ _ _ Hhere). f_equal. apply IH.
    intros a' b' E. apply (f_equal (String c)) in E.
    specialize (Hfirst (String c a') b' E). simpl in Hfirst. lia.
Qed.

Lemma replace_first_svg_absent pos s :
  ~ occurs ".svg" s -> replace_first svgLiteral (fun _ => "") pos s = s.
Proof.
  revert pos. induction s as [|c s IH]; intros pos Hn; [reflexivity|].
  assert (Hhere : svgLiteral pos (String c s) = None).
  { rewrite svgLiteral_eq.
    destruct (strip_prefix ".svg" _) as [r|] eqn:E; [|reflexivity].
    apply strip_prefix_Some in E. destruct Hn. now exists "", r. }
  rewrite (replace_first_none _ _ _ _ _ Hhere). f_equal. apply IH.
  intros (a & b & ->). apply Hn. now exists (String c a), b.
Qed.

Lemma getFileNameFromUrl_removes_first (url pre post : string) :
  last_segment url (pre +:+ ".svg" +:+ post) ->
  first_occurrence ".svg" pre (pre +:+ ".svg" +:+ post) ->
  getFileNameFromUrl url = pre +:+ post.
Proof.
  intros Hseg Hfirst. unfold getFileNameFromUrl.
  rewrite (last_segment_substring url _ Hseg). now apply replace_first_svg.
Qed.

Lemma getFileNameFromUrl_keeps_other (url seg : string) :
  last_segment url seg -> ~ occurs ".svg" seg -> getFileNameFromUrl url = seg.
Proof.
  intros Hseg Hn. unfold getFileNameFromUrl.
  rewrite (last_segment_substring url _ Hseg). now apply replace_first_svg_absent.
Qed.

(** C9.  [getFileNameFromUrl] takes what follows the last slash of the URL
    and removes from it the first occurrence of [.svg], wherever it is in
    the segment: what is before and what is after that occurrence is
    returned, a later [.svg] included. *)
Theorem getFileNameFromUrl_first_occurrence (url pre post : string) :
  last_segment url (pre +:+ ".svg" +:+ post) ->
  first_occurrence ".svg" pre (pre +:+ ".svg" +:+ post) ->
  getFileNameFromUrl url = pre +:+ post.
Proof. apply getFileNameFromUrl_removes_first. Qed.

Lemma first_occurrence_here sub a b :
  (forall a' b', String.length a' < String.length a -> a +:+ sub +:+ b <> a' +:+ sub +:+ b') ->
  first_occurrence sub a (a +:+ sub +:+ b).
Proof.
  intros Hn. split; [now exists b|]. intros a' b' E.
  destruct (le_lt_dec (String.length a) (String.length a')) as [|Hlt]; [assumption|].
  now destruct (Hn a' b' Hlt).
Qed.

Lemma getFileNameFromUrl_first_occurrence_witness :
  getFileNameFromUrl "https://host/icons/icon.svg.svg" = "icon.svg".
Proof.
  apply (getFileNameFromUrl_first_occurrence _ "icon" ".svg").
  - split; [reflexivity|]. right. now exists "https://host/icons".
  - apply first_occurrence_here. intros a' b' Hlt.
    destruct a' as [|c1 [|c2 [|c3 [|c4 a']]]]; simpl in *; try discriminate; lia.
Defined.

Example getFileNameFromUrl_interior :
  getFileNameFromUrl "https://host/icons/a.svg.b" = "a.b"
  /\ getFileNameFromUrl "a.svg.b" = "a.b"
  /\ getFileNameFromUrl "https://host/icons/plain" = "plain".
Proof. repeat split. Qed.

(** ** The matchers *)

Lemma lit_Some {A} l s k (r : A) :
  lit l s k = Some r -> exists s', s = l +:+ s' /\ k s' = Some r.
Proof.
  unfold lit. destruct (strip_prefix l s) as [s'|] eqn:E; [|discriminate].
  apply strip_prefix_Some in E. eauto.
Qed.

Lemma cls_Some {A} p s k (r : A) :
  cls p s k = Some r -> exists c s', s = String c s' /\ p c = true /\ k s' = Some r.
Proof.
  destruct s as [|c s]; simpl; [discriminate|].
  destruct (p c) eqn:E; [eauto|discriminate].
Qed.

Lemma star_Some {A} p s k (r : A) :
  star p s k = Some r -> exists a b, s = a +:+ b /\ sall p a = true /\ k b = Some r.
Proof.
  induction s as [|c s IH]; simpl.
  - intros E. now exists "", "".
  - destruct (p c) eqn:Hc; [|intros E; now exists "", (String c s)].
    destruct (star p s k) as [r'|] eqn:Hs.
    + intros [= ->]. destruct (IH eq_refl) as (a & b & -> & Ha & Hk).
      exists (String c a), b. simpl. now rewrite Hc, Ha.
    + intros E. now exists "", (String c s).
Qed.

Lemma exec_Some {A} (re : nat -> string -> option A) pos s r :
  exec re pos s = Some r ->
  exists pre suf, s = pre +:+ suf /\ re (pos + String.length pre) suf = Some r.
Proof.
  revert pos. induction s as [|c s IH]; intros pos; simpl.
  - destruct (re pos "") eqn:E; [|discriminate]. intros [= ->].
    exists "", "". now rewrite Nat.add_0_r.
  - destruct (re pos (String c s)) eqn:E.
    + intros [= ->]. exists "", (String c s). now rewrite Nat.add_0_r.
    + intros (pre & suf & -> & Hr)%IH. exists (String c pre), suf.
      split; [reflexivity|]. simpl. now rewrite <- Nat.add_succ_comm.
Qed.

(** A match of the path pattern, taken apart. *)
Lemma pathRegex_Some pos s m d :
  Outline.pathRegex pos s = Some (m, d) ->
  exists w attrs rest,
    s = "<path" +:+ String w (attrs +:+ ("d=" +:+ dq) +:+ d +:+ dq +:+ rest)
    /\ is_space w = true
    /\ sall (not_char ">") attrs = true
    /\ sall (not_char (ascii_of_nat 34)) d = true
    /\ m = "<path" +:+ String w (attrs +:+ ("d=" +:+ dq) +:+ d +:+ dq).
Proof.
  unfold Outline.pathRegex.
  intros (s1 & -> & (w & s2 & -> & Hw & H2)%cls_Some)%lit_Some.
  apply star_Some in H2 as (attrs & s3 & -> & Hattrs & H3).
  apply lit_Some in H3 as (s4 & -> & H4).
  apply star_Some in H4 as (d' & s5 & -> & Hd & H5).
  apply lit_Some in H5 as (rest & -> & [= Em Ed]).
  assert (d = d') as -> by (rewrite <- Ed; exact (consumed_app d' (dq +:+ rest))).
  exists w, attrs, rest. repeat split; try assumption.
  rewrite <- Em.
  set (M := "<path" +:+ String w (attrs +:+ ("d=" +:+ dq) +:+ d' +:+ dq)).
  transitivity (consumed (M +:+ rest) rest); [|exact (consumed_app M rest)].
  f_equal. subst M. unfold dq. repeat (progress (simpl; rewrite ?sapp_assoc)).
  reflexivity.
Qed.



(** ** Running a computation *)

Lemma bind_ok {A B} (m : IO A) (k : A -> IO B) w a w' :
  m w = (Ok a, w') -> bind m k w = k a w'.
Proof. unfold bind. now intros ->. Qed.

Lemma bind_throw {A B} (m : IO A) (k : A -> IO B) w e w' :
  m w = (Throw e, w') -> bind m k w = (Throw e, w').
Proof. unfold bind. now intros ->. Qed.

Lemma try_catch_ok {A} (m : IO A) h w a w' :
  m w = (Ok a, w') -> try_catch m h w = (Ok a, w').
Proof. unfold try_catch. now intros ->. Qed.

Lemma try_catch_throw {A} (m : IO A) h w e w' :
  m w = (Throw e, w') -> try_catch m h w = h e w'.
Proof. unfold try_catch. now intros ->. Qed.

Lemma axios_get_ok w url st d :
  http w url = Response st d -> status_ok st = true -> axios_get url w = (Ok d, w).
Proof. unfold axios_get. now intros -> ->. Qed.

Lemma axios_get_fails w url :
  request_fails w url -> exists e, axios_get url w = (Throw e, w).
Proof.
  unfold axios_get. intros [-> | (st & d & -> & ->)]; eauto.
Qed.

Lemma axios_get_any url w : exists r, axios_get url w = (r, w).
Proof.
  unfold axios_get. destruct (http w url) as [st d|]; [destruct (status_ok st)|]; eauto.
Qed.

Lemma grows_refl w : grows w w.
Proof. repeat split; auto. Qed.

Lemma grows_trans w1 w2 w3 : grows w1 w2 -> grows w2 w3 -> grows w1 w3.
Proof.
  intros (? & ? & ? & ? & ?) (? & ? & ? & ? & ?).
  repeat split; try congruence; [set_solver | auto].
Qed.

Lemma grows_log e w : grows w (with_console (console w ++ [e]) w).
Proof. repeat split; simpl; auto. intros x Hx. apply elem_of_app. now left. Qed.

Lemma grows_write p t w : grows w (with_files (<[ p := t ]> (files w)) w).
Proof. repeat split; simpl; auto. rewrite dom_insert. set_solver. Qed.

Section Steps.
Context `{PathModule}.

(** [ensureDirectoryExistence] succeeds when the directory may be created,
    and leaves the files and the log alone. *)
Lemma ensureDirectoryExistence_ok filePath w :
  denied w (dirname filePath) = false ->
  exists b w', ensureDirectoryExistence filePath w = (Ok b, w')
    /\ files w' = files w /\ console w' = console w /\ grows w w'.
Proof.
  intros Hd. unfold ensureDirectoryExistence, bind, existsSync.
  case_bool_decide.
  - exists true, w. repeat split; auto.
  - unfold mkdirSync. rewrite Hd. eexists false, _. split; [reflexivity|].
    repeat split; auto.
Qed.

(** Whatever happens, it throws nothing but a file-system error and leaves
    the files and the log alone. *)
Lemma ensureDirectoryExistence_any filePath w :
  exists r w', ensureDirectoryExistence filePath w = (r, w')
    /\ files w' = files w /\ console w' = console w /\ grows w w'.
Proof.
  unfold ensureDirectoryExistence, bind, existsSync.
  case_bool_decide.
  - exists (Ok true), w. repeat split; auto.
  - unfold mkdirSync. destruct (denied w (dirname filePath)).
    + eexists _, w. repeat split; auto.
    + eexists _, _. split; [reflexivity|]. repeat split; auto.
Qed.

End Steps.

Lemma grows_logged es w : grows w (logged es w).
Proof. repeat split; simpl; auto. intros x Hx. apply elem_of_app. now left. Qed.

(** ** One URL in the outline program *)

Section OutlineSteps.
Context `{PathModule}.

Lemma outline_convertOne_request_fails url w :
  request_fails w url ->
  exists e, Outline.convertOne url w = (Throw e, logged [log_fetching url] w).
Proof.
  intros Hf. destruct (axios_get_fails (logged [log_fetching url] w) url Hf) as [e He].
  exists e. unfold Outline.convertOne.
  erewrite bind_ok by reflexivity. now erewrite bind_throw by exact He.
Qed.

Lemma outline_convertOne_no_path url w st body :
  http w url = Response st (Text body) -> status_ok st = true ->
  exec Outline.pathRegex 0 body = None ->
  Outline.convertOne url w
  = (Ok tt, logged [log_fetching url; log_no_path (getFileNameFromUrl url)] w).
Proof.
  intros Hh Hs Hm. unfold Outline.convertOne.
  erewrite bind_ok by reflexivity.
  erewrite bind_ok by (apply (axios_get_ok _ url st (Text body)); assumption).
  erewrite bind_ok by reflexivity. rewrite Hm.
  unfold console_error, logged, with_console. cbn. now rewrite <- app_assoc.
Qed.

Lemma outline_convertOne_writes url w st body m d :
  http w url = Response st (Text body) -> status_ok st = true ->
  exec Outline.pathRegex 0 body = Some (m, d) ->
  denied w (dirname (Outline.outputPath (cwd w) (iconNameOf url))) = false ->
  denied w (Outline.outputPath (cwd w) (iconNameOf url)) = false ->
  exists w',
    Outline.convertOne url w = (Ok tt, w')
    /\ files w'
       = <[ Outline.outputPath (cwd w) (iconNameOf url)
            := trim (Outline.reactComponent (iconNameOf url) (getFileNameFromUrl url) d) ]>
           (files w)
    /\ console w' = console w ++ [log_fetching url; log_saved (iconNameOf url)]
    /\ grows w w'.
Proof.
  intros Hh Hs Hm Hdir Hfile. unfold Outline.convertOne.
  erewrite bind_ok by reflexivity.
  erewrite bind_ok by (apply (axios_get_ok _ url st (Text body)); assumption).
  erewrite bind_ok by reflexivity. rewrite Hm.
  erewrite bind_ok by reflexivity.
  fold (iconNameOf url). cbn [cwd with_console].
  set (p := Outline.outputPath (cwd w) (iconNameOf url)) in *.
  set (w1 := with_console _ w).
  destruct (ensureDirectoryExistence_ok p w1 Hdir) as (b & w2 & E2 & Hf2 & Hc2 & Hg2).
  erewrite bind_ok by exact E2.
  assert (Hden : denied w2 p = false).
  { destruct Hg2 as (_ & _ & -> & _). exact Hfile. }
  unfold writeFileSync at 1. unfold bind at 1. rewrite Hden.
  eexists. split; [reflexivity|]. split; [|split].
  - cbn. now rewrite Hf2.
  - cbn. rewrite Hc2. cbn. now rewrite <- app_assoc.
  - eapply grows_trans; [apply (grows_log (log_fetching url) w)|].
    eapply grows_trans; [exact Hg2|].
    eapply grows_trans; [apply (grows_write p) | apply grows_log].
Qed.

(** Whatever the world is, the [try] block ends, normally or by throwing; it
    keeps the surroundings, removes no file and logs the URL. *)
Lemma outline_convertOne_any url w :
  exists r w',
    Outline.convertOne url w = (r, w')
    /\ grows w w' /\ log_fetching url ∈ console w'.
Proof.
  set (w1 := logged [log_fetching url] w).
  assert (Hin : log_fetching url ∈ console w1).
  { apply elem_of_app. right. apply list_elem_of_singleton. reflexivity. }
  assert (Hg1 : grows w w1) by apply grows_logged.
  enough (exists r w', Outline.convertOne url w = (r, w') /\ grows w1 w') as
    (r & w' & E & Hg).
  { exists r, w'. split; [exact E|]. split; [exact (grows_trans _ _ _ Hg1 Hg)|].
    destruct Hg as (_ & _ & _ & _ & Hc). auto. }
  unfold Outline.convertOne. erewrite bind_ok by reflexivity. fold w1.
  destruct (axios_get_any url w1) as [[data|e] E];
    [erewrite bind_ok by exact E | erewrite bind_throw by exact E; eauto using grows_refl].
  destruct data as [body|l| |before bad|];
    [erewrite bind_ok by reflexivity
    |erewrite bind_throw by reflexivity; eauto using grows_refl ..].
  destruct (exec Outline.pathRegex 0 body) as [[m d]|].
  - erewrite bind_ok by reflexivity.
    set (p := Outline.outputPath _ _).
    destruct (ensureDirectoryExistence_any p w1) as (r2 & w2 & E2 & _ & _ & Hg2).
    destruct r2 as [b|e]; [|erewrite bind_throw by exact E2; eauto].
    erewrite bind_ok by exact E2.
    unfold writeFileSync at 1. unfold bind at 1.
    destruct (denied w2 p); [eauto|].
    eexists _, _. split; [reflexivity|].
    eapply grows_trans; [exact Hg2|].
    eapply grows_trans; [apply (grows_write p) | apply grows_log].
  - eexists _, _. split; [reflexivity|]. apply grows_log.
Qed.

(** The loop body for one URL never throws. *)
Lemma outline_convertItem_any url w :
  exists w',
    Outline.convertItem url w = (Ok tt, w')
    /\ grows w w' /\ log_fetching url ∈ console w'.
Proof.
  destruct (outline_convertOne_any url w) as (r & w1 & E & Hg & Hin).
  unfold Outline.convertItem. destruct r as [[]|e].
  - exists w1. now rewrite (try_catch_ok _ _ _ _ _ E).
  - rewrite (try_catch_throw _ _ _ _ _ E). eexists. split; [reflexivity|].
    pose proof (grows_log (log_item_error url e) w1) as Hg'. split.
    + exact (grows_trans _ _ _ Hg Hg').
    + destruct Hg' as (_ & _ & _ & _ & Hc). auto.
Qed.

Lemma outline_convertItem_request_fails url w :
  request_fails w url ->
  exists e,
    Outline.convertItem url w = (Ok tt, logged [log_fetching url; log_item_error url e] w).
Proof.
  intros (e & E)%outline_convertOne_request_fails. exists e.
  unfold Outline.convertItem. rewrite (try_catch_throw _ _ _ _ _ E).
  unfold console_error, logged, with_console. cbn. now rewrite <- app_assoc.
Qed.

Lemma outline_convertItem_no_path url w st body :
  http w url = Response st (Text body) -> status_ok st = true ->
  exec Outline.pathRegex 0 body = None ->
  Outline.convertItem url w
  = (Ok tt, logged [log_fetching url; log_no_path (getFileNameFromUrl url)] w).
Proof.
  intros Hh Hs Hm. unfold Outline.convertItem.
  now rewrite (try_catch_ok _ _ _ _ _ (outline_convertOne_no_path url w st body Hh Hs Hm)).
Qed.

Lemma outline_convertItem_writes url w st body m d :
  http w url = Response st (Text body) -> status_ok st = true ->
  exec Outline.pathRegex 0 body = Some (m, d) ->
  denied w (dirname (Outline.outputPath (cwd w) (iconNameOf url))) = false ->
  denied w (Outline.outputPath (cwd w) (iconNameOf url)) = false ->
  exists w',
    Outline.convertItem url w = (Ok tt, w')
    /\ files w'
       = <[ Outline.outputPath (cwd w) (iconNameOf url)
            := trim (Outline.reactComponent (iconNameOf url) (getFileNameFromUrl url) d) ]>
           (files w)
    /\ console w' = console w ++ [log_fetching url; log_saved (iconNameOf url)]
    /\ grows w w'.
Proof.
  intros Hh Hs Hm Hdir Hfile.
  destruct (outline_convertOne_writes url w st body m d Hh Hs Hm Hdir Hfile)
    as (w' & E & Hrest).
  exists w'. unfold Outline.convertItem. now rewrite (try_catch_ok _ _ _ _ _ E).
Qed.

End OutlineSteps.

(** ** One URL in the solid program *)

Section SolidSteps.
Context `{PathModule} `{MarkupLibraries}.

Lemma lib_call_any {A} lib (r : option A) w : exists r', Solid.lib_call lib r w = (r', w).
Proof. destruct r; simpl; eauto. Qed.

Lemma solid_convertOne_request_fails url w :
  request_fails w url ->
  exists e, Solid.convertOne url w = (Throw e, logged [log_fetching url] w).
Proof.
  intros Hf. destruct (axios_get_fails (logged [log_fetching url] w) url Hf) as [e He].
  exists e. unfold Solid.convertOne.
  erewrite bind_ok by reflexivity. now erewrite bind_throw by exact He.
Qed.

Lemma solid_convertOne_writes url w st data optimized code :
  http w url = Response st data -> status_ok st = true ->
  optimize data = Some optimized ->
  prettier_format
    (Solid.reactComponent (iconNameOf url) (getFileNameFromUrl url) (svg_html optimized))
  = Some code ->
  denied w (dirname (Solid.outputPath (cwd w) (iconNameOf url))) = false ->
  denied w (Solid.outputPath (cwd w) (iconNameOf url)) = false ->
  exists w',
    Solid.convertOne url w = (Ok tt, w')
    /\ files w' = <[ Solid.outputPath (cwd w) (iconNameOf url) := code ]> (files w)
    /\ console w' = console w ++ [log_fetching url; log_saved (iconNameOf url)]
    /\ grows w w'.
Proof.
  intros Hh Hs Ho Hp Hdir Hfile. unfold Solid.convertOne.
  erewrite bind_ok by reflexivity.
  erewrite bind_ok by (apply (axios_get_ok _ url st data); assumption).
  rewrite Ho. erewrite bind_ok by reflexivity.
  fold (iconNameOf url). rewrite Hp.
  erewrite bind_ok by reflexivity. erewrite bind_ok by reflexivity.
  cbn [cwd with_console].
  set (p := Solid.outputPath (cwd w) (iconNameOf url)) in *.
  set (w1 := with_console _ w).
  destruct (ensureDirectoryExistence_ok p w1 Hdir) as (b & w2 & E2 & Hf2 & Hc2 & Hg2).
  erewrite bind_ok by exact E2.
  assert (Hden : denied w2 p = false).
  { destruct Hg2 as (_ & _ & -> & _). exact Hfile. }
  unfold writeFileSync at 1. unfold bind at 1. rewrite Hden.
  eexists. split; [reflexivity|]. split; [|split].
  - cbn. now rewrite Hf2.
  - cbn. rewrite Hc2. cbn. now rewrite <- app_assoc.
  - eapply grows_trans; [apply (grows_log (log_fetching url) w)|].
    eapply grows_trans; [exact Hg2|].
    eapply grows_trans; [apply (grows_write p) | apply grows_log].
Qed.

Lemma solid_convertOne_any url w :
  exists r w',
    Solid.convertOne url w = (r, w')
    /\ grows w w' /\ log_fetching url ∈ console w'.
Proof.
  set (w1 := logged [log_fetching url] w).
  assert (Hin : log_fetching url ∈ console w1).
  { apply elem_of_app. right. apply list_elem_of_singleton. reflexivity. }
  assert (Hg1 : grows w w1) by apply grows_logged.
  enough (exists r w', Solid.convertOne url w = (r, w') /\ grows w1 w') as
    (r & w' & E & Hg).
  { exists r, w'. split; [exact E|]. split; [exact (grows_trans _ _ _ Hg1 Hg)|].
    destruct Hg as (_ & _ & _ & _ & Hc). auto. }
  unfold Solid.convertOne. erewrite bind_ok by reflexivity. fold w1.
  destruct (axios_get_any url w1) as [[data|e] E];
    [erewrite bind_ok by exact E | erewrite bind_throw by exact E; eauto using grows_refl].
  destruct (lib_call_any "svgo" (optimize data) w1) as [[optimized|e] Eo];
    [erewrite bind_ok by exact Eo | erewrite bind_throw by exact Eo; eauto using grows_refl].
  match goal with |- context [Solid.lib_call "prettier" ?x] =>
    destruct (lib_call_any "prettier" x w1) as [[code|e] Ep] end;
    [erewrite bind_ok by exact Ep | erewrite bind_throw by exact Ep; eauto using grows_refl].
  erewrite bind_ok by reflexivity.
  set (p := Solid.outputPath _ _).
  destruct (ensureDirectoryExistence_any p w1) as (r2 & w2 & E2 & _ & _ & Hg2).
  destruct r2 as [b|e]; [|erewrite bind_throw by exact E2; eauto].
  erewrite bind_ok by exact E2.
  unfold writeFileSync at 1. unfold bind at 1.
  destruct (denied w2 p); [eauto|].
  eexists _, _. split; [reflexivity|].
  eapply grows_trans; [exact Hg2|].
  eapply grows_trans; [apply (grows_write p) | apply grows_log].
Qed.

Lemma solid_convertItem_any url w :
  exists w',
    Solid.convertItem url w = (Ok tt, w')
    /\ grows w w' /\ log_fetching url ∈ console w'.
Proof.
  destruct (solid_convertOne_any url w) as (r & w1 & E & Hg & Hin).
  unfold Solid.convertItem. destruct r as [[]|e].
  - exists w1. now rewrite (try_catch_ok _ _ _ _ _ E).
  - rewrite (try_catch_throw _ _ _ _ _ E). eexists. split; [reflexivity|].
    pose proof (grows_log (log_item_error url e) w1) as Hg'. split.
    + exact (grows_trans _ _ _ Hg Hg').
    + destruct Hg' as (_ & _ & _ & _ & Hc). auto.
Qed.

Lemma solid_convertItem_request_fails url w :
  request_fails w url ->
  exists e,
    Solid.convertItem url w = (Ok tt, logged [log_fetching url; log_item_error url e] w).
Proof.
  intros (e & E)%solid_convertOne_request_fails. exists e.
  unfold Solid.convertItem. rewrite (try_catch_throw _ _ _ _ _ E).
  unfold console_error, logged, with_console. cbn. now rewrite <- app_assoc.
Qed.

Lemma solid_convertItem_writes url w st data optimized code :
  http w url = Response st data -> status_ok st = true ->
  optimize data = Some optimized ->
  prettier_format
    (Solid.reactComponent (iconNameOf url) (getFileNameFromUrl url) (svg_html optimized))
  = Some code ->
  denied w (dirname (Solid.outputPath (cwd w) (iconNameOf url))) = false ->
  denied w (Solid.outputPath (cwd w) (iconNameOf url)) = false ->
  exists w',
    Solid.convertItem url w = (Ok tt, w')
    /\ files w' = <[ Solid.outputPath (cwd w) (iconNameOf url) := code ]> (files w)
    /\ console w' = console w ++ [log_fetching url; log_saved (iconNameOf url)]
    /\ grows w w'.
Proof.
  intros Hh Hs Ho Hp Hdir Hfile.
  destruct (solid_convertOne_writes url w st data optimized code Hh Hs Ho Hp Hdir Hfile)
    as (w' & E & Hrest).
  exists w'. unfold Solid.convertItem. now rewrite (try_catch_ok _ _ _ _ _ E).
Qed.

End SolidSteps.

(** ** The loop *)

Section Loop.
Variable item : string -> IO unit.
Hypothesis item_any :
  forall url w, exists w',
    item url w = (Ok tt, w') /\ grows w w' /\ log_fetching url ∈ console w'.

(** A loop whose body never throws runs through the whole batch. *)
Lemma for_of_runs urls w :
  exists w', for_of urls item w = (Ok tt, w') /\ grows w w'.
Proof.
  revert w. induction urls as [|u urls IH]; intros w.
  - exists w. split; [reflexivity | apply grows_refl].
  - destruct (item_any u w) as (w1 & E1 & Hg1 & _).
    destruct (IH w1) as (w' & E' & Hg').
    exists w'. cbn [for_of]. rewrite (bind_ok _ _ _ _ _ E1).
    split; [exact E' | exact (grows_trans _ _ _ Hg1 Hg')].
Qed.

(** What one iteration establishes for its URL still holds at the end of
    the batch, provided it only depends on what a run never undoes. *)
Lemma for_of_each (Pre Post : World -> string -> Prop) :
  (forall w w' u, grows w w' -> Pre w u -> Pre w' u) ->
  (forall w w' u, grows w w' -> Post w u -> Post w' u) ->
  (forall w u w', Pre w u -> item u w = (Ok tt, w') -> Post w' u) ->
  forall urls w w', for_of urls item w = (Ok tt, w') ->
  forall u, u ∈ urls -> Pre w u -> Post w' u.
Proof.
  intros HPre HPost Hitem urls. induction urls as [|x urls IH]; intros w w' E u Hu HP.
  - inversion Hu.
  - destruct (item_any x w) as (w1 & E1 & Hg1 & _).
    cbn [for_of] in E. rewrite (bind_ok _ _ _ _ _ E1) in E.
    destruct (for_of_runs urls w1) as (w2 & E2 & Hg2).
    assert (w2 = w') as -> by congruence.
    apply elem_of_cons in Hu as [-> | Hu].
    + apply (HPost w1 w' x Hg2). exact (Hitem w x w1 HP E1).
    + apply (IH w1 w' E u Hu). exact (HPre w w1 u Hg1 HP).
Qed.

End Loop.

(** ** The source lister *)

Lemma stake_sdrop n s : stake n s +:+ sdrop n s = s.
Proof.
  revert s. induction n as [|n IH]; intros [|c s]; simpl; try reflexivity.
  now rewrite IH.
Qed.

Lemma endsWith_spec s t : endsWith s t = true <-> exists stem, s = stem +:+ t.
Proof.
  unfold endsWith. rewrite andb_true_iff, bool_decide_eq_true, Nat.leb_le. split.
  - intros [_ E]. exists (stake (String.length s - String.length t) s).
    set (k := String.length s - String.length t) in *.
    rewrite <- E. symmetry. apply stake_sdrop.
  - intros [stem ->]. rewrite slength_app. split; [lia|].
    replace (String.length stem + String.length t - String.length t)
      with (String.length stem) by lia.
    apply sdrop_app.
Qed.

Lemma endsWith_upper_case stem : endsWith (stem +:+ ".SVG") ".svg" = false.
Proof.
  unfold endsWith. rewrite slength_app. cbn [String.length].
  replace (String.length stem + 4 - 4) with (String.length stem) by lia.
  rewrite sdrop_app. apply andb_false_r.
Qed.

Lemma collectSvgUrls_from (acc : list string) (entries : list DirEntry) :
  fold_left
    (fun svgUrls file =>
       if endsWith (name file) ".svg" then svgUrls ++ [download_url file] else svgUrls)
    entries acc
  = acc ++ map download_url (List.filter (fun e => endsWith (name e) ".svg") entries).
Proof.
  revert acc. induction entries as [|e entries IH]; intros acc; simpl.
  - now rewrite app_nil_r.
  - rewrite IH. destruct (endsWith (name e) ".svg"); [|reflexivity].
    simpl. now rewrite <- app_assoc.
Qed.

Lemma collectSvgUrls_filter (entries : list DirEntry) :
  collectSvgUrls entries
  = map download_url (List.filter (fun e => endsWith (name e) ".svg") entries).
Proof. exact (collectSvgUrls_from [] entries). Qed.

Lemma fetchGithubSvgUrls_ok repo path w st entries :
  http w (githubApiUrl repo path) = Response st (Listing entries) ->
  status_ok st = true ->
  fetchGithubSvgUrls repo path w
  = (Ok (collectSvgUrls entries), logged [log_total (length (collectSvgUrls entries))] w).
Proof.
  intros Hh Hs. unfold fetchGithubSvgUrls.
  apply try_catch_ok.
  erewrite bind_ok by (apply (axios_get_ok _ _ st (Listing entries)); assumption).
  erewrite bind_ok by reflexivity. erewrite bind_ok by reflexivity. reflexivity.
Qed.

Lemma fetchGithubSvgUrls_request_fails repo path w :
  request_fails w (githubApiUrl repo path) ->
  exists e, fetchGithubSvgUrls repo path w = (Ok [], logged [log_listing_error e] w).
Proof.
  intros (e & E)%axios_get_fails. exists e. unfold fetchGithubSvgUrls.
  erewrite try_catch_throw by (erewrite bind_throw by exact E; reflexivity).
  reflexivity.
Qed.

(** C3.  On a successful listing the source lister returns the download URLs
    of the entries whose name ends in [.svg], in the order of the listing;
    a name ends in [.svg] when it is some stem followed by exactly these four
    characters, which a name in [.SVG] is not. *)
Theorem fetchGithubSvgUrls_lists_svg (repo path : string) (w : World)
    (st : nat) (entries : list DirEntry) :
  http w (githubApiUrl repo path) = Response st (Listing entries) ->
  status_ok st = true ->
  fst (fetchGithubSvgUrls repo path w)
  = Ok (map download_url (List.filter (fun e => endsWith (name e) ".svg") entries))
  /\ (forall s, endsWith s ".svg" = true <-> exists stem, s = stem +:+ ".svg")
  /\ (forall stem, endsWith (stem +:+ ".SVG") ".svg" = false).
Proof.
  intros Hh Hs. rewrite (fetchGithubSvgUrls_ok repo path w st entries Hh Hs).
  rewrite collectSvgUrls_filter. split; [reflexivity|]. split.
  - intros s. apply endsWith_spec.
  - apply endsWith_upper_case.
Qed.

Lemma fetchGithubSvgUrls_lists_svg_witness :
  fst (fetchGithubSvgUrls "owner/name" "icons" (sample_world listing_net))
  = Ok ["https://host/icons/a.svg"].
Proof.
  exact (proj1 (fetchGithubSvgUrls_lists_svg "owner/name" "icons"
                  (sample_world listing_net) 200 sample_listing eq_refl eq_refl)).
Defined.

Lemma for_of_nil {A} (body : A -> IO unit) w : for_of [] body w = (Ok tt, w).
Proof. reflexivity. Qed.

(** C7.  When the listing request gets no response or a status outside 2xx,
    the source lister logs the error and returns the empty list; the whole
    program then logs that it processes 0 files and ends normally, with the
    files as they were. *)
Theorem listing_failure_is_not_fatal `{PathModule} `{MarkupLibraries}
    (repo path : string) (w : World) :
  request_fails w (githubApiUrl repo path) ->
  exists e,
    fetchGithubSvgUrls repo path w = (Ok [], logged [log_listing_error e] w)
    /\ (repo = "tailwindlabs/heroicons" -> path = "src/24/outline" ->
        Outline.processGithubSvgs w
        = (Ok tt, logged [log_listing_error e; log_processing 0] w))
    /\ (repo = "tailwindlabs/heroicons" -> path = "src/24/solid" ->
        Solid.processGithubSvgs w
        = (Ok tt, logged [log_listing_error e; log_processing 0] w))
    /\ files (logged [log_listing_error e; log_processing 0] w) = files w.
Proof.
  intros Hf. destruct (fetchGithubSvgUrls_request_fails repo path w Hf) as [e E].
  exists e. split; [exact E|]. split; [|split; [|reflexivity]].
  - intros -> ->. unfold Outline.processGithubSvgs, Outline.convertSvgToReact.
    rewrite (bind_ok _ _ _ _ _ E). erewrite bind_ok by reflexivity.
    rewrite for_of_nil. unfold logged, with_console.
    cbn [cwd http denied files dirs console]. now rewrite <- app_assoc.
  - intros -> ->. unfold Solid.processGithubSvgs, Solid.convertSvgToReact.
    rewrite (bind_ok _ _ _ _ _ E). erewrite bind_ok by reflexivity.
    rewrite for_of_nil. unfold logged, with_console.
    cbn [cwd http denied files dirs console]. now rewrite <- app_assoc.
Qed.

Lemma listing_failure_is_not_fatal_witness :
  exists e,
    fetchGithubSvgUrls "tailwindlabs/heroicons" "src/24/outline" (sample_world unavailable_net)
    = (Ok [], logged [log_listing_error e] (sample_world unavailable_net))
    /\ fst (@Outline.processGithubSvgs sample_paths (sample_world unavailable_net)) = Ok tt
    /\ files (snd (@Outline.processGithubSvgs sample_paths (sample_world unavailable_net))) = ∅.
Proof.
  destruct (@listing_failure_is_not_fatal sample_paths sample_libraries
              "tailwindlabs/heroicons" "src/24/outline" (sample_world unavailable_net))
    as (e & E & Ho & _ & _).
  { right. exists 503, Other. split; reflexivity. }
  exists e. split; [exact E|]. rewrite (Ho eq_refl eq_refl). split; reflexivity.
Defined.



(** ** Failures stay within their iteration *)

Lemma request_fails_grows w w' url : grows w w' -> request_fails w url -> request_fails w' url.
Proof. intros (_ & E & _) Hf. unfold request_fails in *. now rewrite E. Qed.

Lemma in_console_grows w w' e : grows w w' -> e ∈ console w -> e ∈ console w'.
Proof. intros (_ & _ & _ & _ & Hc). apply Hc. Qed.

Lemma file_grows w w' p : grows w w' -> is_Some (files w !! p) -> is_Some (files w' !! p).
Proof.
  intros (_ & _ & _ & Hd & _) Hp. apply elem_of_dom. apply Hd. now apply elem_of_dom.
Qed.

Section Batch.
Context `{PathModule} `{MarkupLibraries}.

Lemma outline_writes_grows w w' url :
  grows w w' -> outline_writes w url -> outline_writes w' url.
Proof.
  intros (Ec & Eh & Ed & _) (st & body & m & d & ?). exists st, body, m, d.
  now rewrite Ec, Eh, Ed.
Qed.

Lemma solid_writes_grows w w' url :
  grows w w' -> solid_writes w url -> solid_writes w' url.
Proof.
  intros (Ec & Eh & Ed & _) (st & data & o & code & ?). exists st, data, o, code.
  now rewrite Ec, Eh, Ed.
Qed.

Lemma outline_batch urls w :
  exists w',
    for_of urls Outline.convertItem w = (Ok tt, w')
    /\ grows w w'
    /\ forall url, url ∈ urls ->
       log_fetching url ∈ console w'
       /\ (request_fails w url -> exists e, log_item_error url e ∈ console w')
       /\ (outline_writes w url ->
           is_Some (files w' !! Outline.outputPath (cwd w) (iconNameOf url))).
Proof.
  destruct (for_of_runs _ outline_convertItem_any urls w) as (w' & E & Hg).
  exists w'. split; [exact E|]. split; [exact Hg|]. intros url Hin.
  pose proof (for_of_each _ outline_convertItem_any) as Each. split; [|split].
  - refine (Each (fun _ _ => True) (fun w u => log_fetching u ∈ console w)
              _ _ _ urls w w' E url Hin I); cbv beta.
    + auto.
    + intros w0 w1 u Hg1. now apply in_console_grows.
    + intros w0 u w1 _ E1. destruct (outline_convertItem_any u w0) as (w2 & E2 & _ & Hl).
      congruence.
  - intros Hf.
    refine (Each request_fails (fun w u => exists e, log_item_error u e ∈ console w)
              _ _ _ urls w w' E url Hin Hf); cbv beta.
    + intros w0 w1 u Hg1. now apply request_fails_grows.
    + intros w0 w1 u Hg1 [e He]. exists e. eauto using in_console_grows.
    + intros w0 u w1 Hf0 E1.
      destruct (outline_convertItem_request_fails u w0 Hf0) as (e & E2).
      exists e. assert (w1 = logged [log_fetching u; log_item_error u e] w0) as ->
        by congruence.
      cbn. rewrite elem_of_app. right. apply list_elem_of_In. simpl. auto.
  - intros Hw. destruct Hg as (<- & _).
    refine (Each outline_writes
              (fun w u => is_Some (files w !! Outline.outputPath (cwd w) (iconNameOf u)))
              _ _ _ urls w w' E url Hin Hw); cbv beta.
    + intros w0 w1 u Hg1. now apply outline_writes_grows.
    + intros w0 w1 u Hg1 Hp. destruct (Hg1) as (-> & _). eauto using file_grows.
    + intros w0 u w1 (st & body & m & d & Hh & Hs & Hm & Hd1 & Hd2) E1.
      destruct (outline_convertItem_writes u w0 st body m d Hh Hs Hm Hd1 Hd2)
        as (w2 & E2 & Hf & _ & (Hc & _)).
      assert (w1 = w2) as -> by congruence.
      rewrite Hc, Hf, lookup_insert_eq. eauto.
Qed.

Lemma solid_batch urls w :
  exists w',
    for_of urls Solid.convertItem w = (Ok tt, w')
    /\ grows w w'
    /\ forall url, url ∈ urls ->
       log_fetching url ∈ console w'
       /\ (request_fails w url -> exists e, log_item_error url e ∈ console w')
       /\ (solid_writes w url ->
           is_Some (files w' !! Solid.outputPath (cwd w) (iconNameOf url))).
Proof.
  destruct (for_of_runs _ solid_convertItem_any urls w) as (w' & E & Hg).
  exists w'. split; [exact E|]. split; [exact Hg|]. intros url Hin.
  pose proof (for_of_each _ solid_convertItem_any) as Each. split; [|split].
  - refine (Each (fun _ _ => True) (fun w u => log_fetching u ∈ console w)
              _ _ _ urls w w' E url Hin I); cbv beta.
    + auto.
    + intros w0 w1 u Hg1. now apply in_console_grows.
    + intros w0 u w1 _ E1. destruct (solid_convertItem_any u w0) as (w2 & E2 & _ & Hl).
      congruence.
  - intros Hf.
    refine (Each request_fails (fun w u => exists e, log_item_error u e ∈ console w)
              _ _ _ urls w w' E url Hin Hf); cbv beta.
    + intros w0 w1 u Hg1. now apply request_fails_grows.
    + intros w0 w1 u Hg1 [e He]. exists e. eauto using in_console_grows.
    + intros w0 u w1 Hf0 E1.
      destruct (solid_convertItem_request_fails u w0 Hf0) as (e & E2).
      exists e. assert (w1 = logged [log_fetching u; log_item_error u e] w0) as ->
        by congruence.
      cbn. rewrite elem_of_app. right. apply list_elem_of_In. simpl. auto.
  - intros Hw. destruct Hg as (<- & _).
    refine (Each solid_writes
              (fun w u => is_Some (files w !! Solid.outputPath (cwd w) (iconNameOf u)))
              _ _ _ urls w w' E url Hin Hw); cbv beta.
    + intros w0 w1 u Hg1. now apply solid_writes_grows.
    + intros w0 w1 u Hg1 Hp. destruct (Hg1) as (-> & _). eauto using file_grows.
    + intros w0 u w1 (st & data & o & code & Hh & Hs & Ho & Hp & Hd1 & Hd2) E1.
      destruct (solid_convertItem_writes u w0 st data o code Hh Hs Ho Hp Hd1 Hd2)
        as (w2 & E2 & Hf & _ & (Hc & _)).
      assert (w1 = w2) as -> by congruence.
      rewrite Hc, Hf, lookup_insert_eq. eauto.
Qed.

(** C6.  In both programs the loop body catches whatever its [try] block
    throws and logs it, so the loop never throws: every URL of the batch is
    taken up, a failed request is logged for its URL, and every URL that can
    be fetched, transformed and written has its output file at the end,
    wherever in the batch the failures are. *)
Theorem convertSvgToReact_isolates_failures (urls : list string) (w : World) :
  (exists w',
     Outline.convertSvgToReact urls w = (Ok tt, w')
     /\ forall url, url ∈ urls ->
        log_fetching url ∈ console w'
        /\ (request_fails w url -> exists e, log_item_error url e ∈ console w')
        /\ (outline_writes w url ->
            is_Some (files w' !! Outline.outputPath (cwd w) (iconNameOf url))))
  /\ (exists w',
       Solid.convertSvgToReact urls w = (Ok tt, w')
       /\ forall url, url ∈ urls ->
          log_fetching url ∈ console w'
          /\ (request_fails w url -> exists e, log_item_error url e ∈ console w')
          /\ (solid_writes w url ->
              is_Some (files w' !! Solid.outputPath (cwd w) (iconNameOf url))))
  /\ (forall url w0 e w1,
        Outline.convertOne url w0 = (Throw e, w1) ->
        Outline.convertItem url w0 = (Ok tt, logged [log_item_error url e] w1))
  /\ (forall url w0 e w1,
        Solid.convertOne url w0 = (Throw e, w1) ->
        Solid.convertItem url w0 = (Ok tt, logged [log_item_error url e] w1)).
Proof.
  set (w0 := logged [log_processing (length urls)] w).
  split; [|split; [|split]].
  - destruct (outline_batch urls w0) as (w' & E & _ & Hall).
    exists w'. split.
    { unfold Outline.convertSvgToReact. now erewrite bind_ok by reflexivity. }
    intros url Hin. destruct (Hall url Hin) as (Hl & Hf & Hw).
    split; [exact Hl|]. split; [exact Hf | exact Hw].
  - destruct (solid_batch urls w0) as (w' & E & _ & Hall).
    exists w'. split.
    { unfold Solid.convertSvgToReact. now erewrite bind_ok by reflexivity. }
    intros url Hin. destruct (Hall url Hin) as (Hl & Hf & Hw).
    split; [exact Hl|]. split; [exact Hf | exact Hw].
  - intros url w1 e w2 E. unfold Outline.convertItem.
    now rewrite (try_catch_throw _ _ _ _ _ E).
  - intros url w1 e w2 E. unfold Solid.convertItem.
    now rewrite (try_catch_throw _ _ _ _ _ E).
Qed.

End Batch.

Lemma convertSvgToReact_isolates_failures_witness :
  let urls :=
    ["https://host/icons/a.svg"; "https://host/icons/b.svg"; "https://host/icons/c.svg"] in
  exists w',
    @Outline.convertSvgToReact sample_paths urls (sample_world batch_net) = (Ok tt, w')
    /\ (exists e, log_item_error "https://host/icons/b.svg" e ∈ console w')
    /\ is_Some (files w' !! "/repo/src/assets/icons/AIcon.tsx")
    /\ is_Some (files w' !! "/repo/src/assets/icons/CIcon.tsx").
Proof.
  intros urls.
  destruct (@convertSvgToReact_isolates_failures sample_paths sample_libraries urls
              (sample_world batch_net)) as ((w' & E & Hall) & _).
  exists w'. split; [exact E|]. split; [|split].
  - destruct (Hall "https://host/icons/b.svg") as (_ & Hf & _).
    { apply list_elem_of_In. simpl. auto. }
    apply Hf. left. reflexivity.
  - destruct (Hall "https://host/icons/a.svg") as (_ & _ & Hw).
    { apply list_elem_of_In. simpl. auto. }
    apply Hw. exists 200, (svg_of "M1 1"), ("<path d=" +:+ dq +:+ "M1 1" +:+ dq), "M1 1".
    repeat split; reflexivity.
  - destruct (Hall "https://host/icons/c.svg") as (_ & _ & Hw).
    { apply list_elem_of_In. simpl. auto. }
    apply Hw. exists 200, (svg_of "M3 3"), ("<path d=" +:+ dq +:+ "M3 3" +:+ dq), "M3 3".
    repeat split; reflexivity.
Defined.

(** ** The emitted text *)

Lemma includes_occurs s sub : includes s sub = true -> occurs sub s.
Proof.
  induction s as [|c s IH]; simpl.
  - destruct (strip_prefix sub "") as [r|] eqn:E; [|discriminate].
    intros _. apply strip_prefix_Some in E. now exists "", r.
  - destruct (strip_prefix sub (String c s)) as [r|] eqn:E.
    + intros _. apply strip_prefix_Some in E. now exists "", r.
    + intros (a & b & ->)%IH. now exists (String c a), b.
Qed.

Lemma srev_onto_onto a b s : srev_onto a (srev_onto b s) = srev_onto (s +:+ a) b.
Proof.
  revert a b. induction s as [|c s IH]; intros a b; simpl; [reflexivity|].
  now rewrite IH.
Qed.

Lemma srev_involutive s : srev (srev s) = s.
Proof. unfold srev. rewrite srev_onto_onto. simpl. apply sapp_nil_r. Qed.

Lemma srev_onto_app acc a b : srev_onto acc (a +:+ b) = srev_onto (srev_onto acc a) b.
Proof. revert acc. induction a as [|c a IH]; intros acc; simpl; [reflexivity | apply IH]. Qed.

(** A text that begins and ends with a character other than white space is
    its own trimmed text, also behind one leading white-space character. *)
Lemma trim_framed (sp first last : ascii) (mid : string) :
  is_space sp = true -> is_space first = false -> is_space last = false ->
  trim (String sp (String first (mid +:+ String last "")))
  = String first (mid +:+ String last "").
Proof.
  intros Hsp Hf Hl. unfold trim. cbn [trimStart]. rewrite Hsp. cbn [trimStart]. rewrite Hf.
  set (t := String first (mid +:+ String last "")).
  assert (E : srev t = String last (srev (String first mid))).
  { unfold srev, t. change (String first (mid +:+ String last ""))
      with (String first mid +:+ String last "").
    now rewrite srev_onto_app. }
  rewrite E. cbn [trimStart]. rewrite Hl, <- E. apply srev_involutive.
Qed.

(** The written text is the template without its leading line feed; the
    path data stand between the quotes of the [d] attribute, and what is
    before and after them does not depend on them. *)
Lemma outline_text iconName ariaLabel :
  exists before after, forall pathData,
    trim (Outline.reactComponent iconName ariaLabel pathData)
    = before +:+ ("d=" +:+ dq +:+ pathData +:+ dq) +:+ after.
Proof.
  set (head :=
    unlines [
      "mport { IconProps } from './types';";
      "";
      "export default function " +:+ iconName +:+ "(props: IconProps) {";
      "  return (";
      "    <svg";
      "      xmlns=" +:+ dq +:+ "http://www.w3.org/2000/svg" +:+ dq;
      "      fill=" +:+ dq +:+ "none" +:+ dq;
      "      viewBox=" +:+ dq +:+ "0 0 24 24" +:+ dq;
      "      strokeWidth={1.5}";
      "      stroke=" +:+ dq +:+ "currentColor" +:+ dq;
      "      className=" +:+ dq +:+ "arctic-icon-medium" +:+ dq;
      "      aria-label=" +:+ dq +:+ ariaLabel +:+ dq;
      "      {...props}";
      "    >";
      "      <path";
      "        strokeLinecap=" +:+ dq +:+ "round" +:+ dq;
      "        strokeLinejoin=" +:+ dq +:+ "round" +:+ dq;
      "        " ]).
  set (tail := unlines [ ""; "      />"; "    </svg>"; "  );"; "" ]).
  exists (String "i" head), (tail +:+ "}"). intros pathData.
  transitivity
    (String "i" ((head +:+ ("d=" +:+ dq +:+ pathData +:+ dq) +:+ tail) +:+ String "}" "")).
  - rewrite <- (trim_framed (ascii_of_nat 10) "i" "}") by reflexivity.
    f_equal. unfold Outline.reactComponent, unlines, head, tail, nl, dq.
    cbn [String.concat]. repeat (progress (simpl; rewrite ?sapp_assoc)). reflexivity.
  - clearbody head tail. rewrite sapp_cons. f_equal. now rewrite !sapp_assoc.
Qed.

Lemma span_until p a c b : sall p a = true -> p c = false -> span p (a +:+ String c b) = a.
Proof.
  intros Ha Hc. induction a as [|x a IH]; simpl in *; [now rewrite Hc|].
  apply andb_prop in Ha as [Hx Ha]. now rewrite Hx, (IH Ha).
Qed.

(** C10.  Whatever the markup is, the path data that the pattern extracts
    hold no double quote; in the emitted text they stand between the quotes
    of the [d] attribute, and reading that attribute back, from its opening
    quote to the next quote, gives the path data again. *)
Theorem pathData_is_quotable (svgData m pathData iconName ariaLabel : string) :
  exec Outline.pathRegex 0 svgData = Some (m, pathData) ->
  sall (not_char (ascii_of_nat 34)) pathData = true
  /\ exists before after,
       trim (Outline.reactComponent iconName ariaLabel pathData)
       = before +:+ ("d=" +:+ dq +:+ pathData +:+ dq) +:+ after
       /\ span (not_char (ascii_of_nat 34)) (pathData +:+ dq +:+ after) = pathData.
Proof.
  intros (pre & suf & _ & (w & attrs & rest & _ & _ & _ & Hd & _)%pathRegex_Some)%exec_Some.
  split; [exact Hd|].
  destruct (outline_text iconName ariaLabel) as (before & after & E).
  exists before, after. split; [apply E|].
  now apply span_until.
Qed.

Lemma pathData_is_quotable_witness :
  sall (not_char (ascii_of_nat 34)) "M1 1L2 2" = true
  /\ exists before after,
       trim (Outline.reactComponent "CheckIcon" "check" "M1 1L2 2")
       = before +:+ ("d=" +:+ dq +:+ "M1 1L2 2" +:+ dq) +:+ after
       /\ span (not_char (ascii_of_nat 34)) ("M1 1L2 2" +:+ dq +:+ after) = "M1 1L2 2".
Proof.
  exact (pathData_is_quotable (svg_of "M1 1L2 2")
           ("<path d=" +:+ dq +:+ "M1 1L2 2" +:+ dq) "M1 1L2 2" "CheckIcon" "check" eq_refl).
Defined.

(** ** End to end *)

Lemma getFileNameFromUrl_check base : getFileNameFromUrl (base +:+ "/check.svg") = "check".
Proof.
  apply (getFileNameFromUrl_removes_first _ "check" "").
  - split; [reflexivity|]. right. now exists base.
  - apply first_occurrence_here. intros a' b' Hlt.
    destruct a' as [|c1 [|c2 [|c3 [|c4 [|c5 a']]]]]; simpl in *; try discriminate; lia.
Qed.

(** C1.  In the outline program, when the listing has the one entry
    [check.svg], whose download URL ends in [/check.svg], and the body
    fetched from that URL is the markup with the single path [M1 1L2 2],
    the run ends normally and changes the files by exactly one: the file
    [CheckIcon.tsx] in the output directory, whose text holds the [d]
    attribute with these path data and the label [check]. *)
Theorem check_icon_end_to_end `{PathModule} (w : World) (base : string) (st1 st2 : nat) :
  let url := base +:+ "/check.svg" in
  let out := join [cwd w; "src"; "assets"; "icons"; "CheckIcon.tsx"] in
  let text := trim (Outline.reactComponent "CheckIcon" "check" "M1 1L2 2") in
  http w (githubApiUrl "tailwindlabs/heroicons" "src/24/outline")
  = Response st1 (Listing [ {| name := "check.svg"; download_url := url |} ]) ->
  status_ok st1 = true ->
  http w url = Response st2 (Text ("<svg><path d=" +:+ dq +:+ "M1 1L2 2" +:+ dq +:+ "/></svg>")) ->
  status_ok st2 = true ->
  denied w (dirname out) = false ->
  denied w out = false ->
  exists w',
    Outline.processGithubSvgs w = (Ok tt, w')
    /\ files w' = <[ out := text ]> (files w)
    /\ occurs ("d=" +:+ dq +:+ "M1 1L2 2" +:+ dq) text
    /\ occurs ("aria-label=" +:+ dq +:+ "check" +:+ dq) text.
Proof.
  intros url out text Hlist Hs1 Hbody Hs2 Hdir Hfile.
  pose proof (fetchGithubSvgUrls_ok _ _ w st1 _ Hlist Hs1) as Efetch.
  change (collectSvgUrls _) with [url] in Efetch.
  set (w1 := logged [log_total (length [url])] w) in Efetch.
  set (w2 := logged [log_processing (length [url])] w1).
  assert (Ename : iconNameOf url = "CheckIcon").
  { unfold iconNameOf, url. now rewrite getFileNameFromUrl_check. }
  destruct (outline_convertItem_writes url w2 st2 _
              ("<path d=" +:+ dq +:+ "M1 1L2 2" +:+ dq) "M1 1L2 2" Hbody Hs2 eq_refl)
    as (w' & E & Hf & _).
  { rewrite Ename. exact Hdir. }
  { rewrite Ename. exact Hfile. }
  exists w'. split; [|split; [|split]].
  - unfold Outline.processGithubSvgs. rewrite (bind_ok _ _ _ _ _ Efetch).
    unfold Outline.convertSvgToReact. erewrite bind_ok by reflexivity.
    fold w2. cbn [for_of]. rewrite (bind_ok _ _ _ _ _ E). reflexivity.
  - rewrite Hf, Ename. unfold url. now rewrite getFileNameFromUrl_check.
  - apply includes_occurs. vm_compute. reflexivity.
  - apply includes_occurs. vm_compute. reflexivity.
Qed.

Lemma check_icon_end_to_end_witness :
  exists w',
    @Outline.processGithubSvgs sample_paths (sample_world check_net) = (Ok tt, w')
    /\ files w'
       = {[ "/repo/src/assets/icons/CheckIcon.tsx"
            := trim (Outline.reactComponent "CheckIcon" "check" "M1 1L2 2") ]}.
Proof.
  destruct (@check_icon_end_to_end sample_paths (sample_world check_net)
              "https://raw.githubusercontent.com/tailwindlabs/heroicons/master/src/24/outline"
              200 200 eq_refl eq_refl eq_refl eq_refl eq_refl eq_refl)
    as (w' & E & Hf & _).
  exists w'. split; [exact E | exact Hf].
Defined.

(** ** The first match of the path pattern *)

Lemma star_cons_Some {A} p c s k (r : A) :
  p c = true -> star p s k = Some r -> star p (String c s) k = Some r.
Proof. intros Hc Hs. simpl. now rewrite Hc, Hs. Qed.

(** The greedy run takes all of [a] when what follows succeeds there. *)
Lemma star_whole_run {A} p a b k (r : A) :
  sall p a = true -> stops p b -> k b = Some r -> star p (a +:+ b) k = Some r.
Proof.
  intros Ha Hb Hk. induction a as [|x a IH].
  - destruct b as [|c b]; simpl in *; [exact Hk | now rewrite Hb].
  - apply andb_prop in Ha as [Hx Ha]. rewrite sapp_cons.
    apply star_cons_Some; auto.
Qed.

(** When what follows fails after every longer run, the star gives back
    down to [a2]. *)
Lemma star_gives_back {A} p a2 b (k : string -> option A) :
  sall p a2 = true -> stops p b ->
  (forall x y, a2 = x +:+ y -> x <> "" -> k (y +:+ b) = None) ->
  star p (a2 +:+ b) k = k (a2 +:+ b).
Proof.
  intros Ha Hb. induction a2 as [|c a2 IH]; intros Hdeep.
  - destruct b as [|c b]; simpl in *; [reflexivity | now rewrite Hb].
  - apply andb_prop in Ha as [Hc Ha]. rewrite sapp_cons. cbn [star]. rewrite Hc.
    rewrite (IH Ha).
    + now rewrite (Hdeep (String c "") a2 eq_refl).
    + intros x y -> Hx. apply (Hdeep (String c x) y eq_refl). discriminate.
Qed.

Lemma star_last_success {A} p a1 a2 b k (r : A) :
  sall p a1 = true -> sall p a2 = true -> stops p b ->
  (forall x y, a2 = x +:+ y -> x <> "" -> k (y +:+ b) = None) ->
  k (a2 +:+ b) = Some r ->
  star p (a1 +:+ a2 +:+ b) k = Some r.
Proof.
  intros Ha1 Ha2 Hb Hdeep Hk. induction a1 as [|c a1 IH].
  - change ("" +:+ a2 +:+ b) with (a2 +:+ b). now rewrite star_gives_back.
  - apply andb_prop in Ha1 as [Hc Ha1]. rewrite sapp_cons.
    apply star_cons_Some; auto.
Qed.

Lemma exec_here {A} (re : nat -> string -> option A) pos s r :
  re pos s = Some r -> exec re pos s = Some r.
Proof. intros E. destruct s; simpl; now rewrite E. Qed.

Lemma exec_skip {A} (re : nat -> string -> option A) pos pre suf :
  (forall a b, pre = a +:+ b -> b <> "" -> re (pos + String.length a) (b +:+ suf) = None) ->
  exec re pos (pre +:+ suf) = exec re (pos + String.length pre) suf.
Proof.
  revert pos. induction pre as [|c pre IH]; intros pos Hn.
  - simpl. now rewrite Nat.add_0_r.
  - rewrite sapp_cons. cbn [exec].
    pose proof (Hn "" (String c pre) eq_refl) as H0. simpl in H0.
    rewrite Nat.add_0_r in H0. rewrite H0 by discriminate.
    rewrite IH.
    + simpl. now rewrite Nat.add_succ_r.
    + intros a b -> Hb. specialize (Hn (String c a) b eq_refl Hb).
      simpl in Hn. now rewrite Nat.add_succ_r in Hn.
Qed.

Lemma no_later_d v t x y tail z :
  ("d=" +:+ dq) +:+ v +:+ dq +:+ t = x +:+ y -> x <> "" ->
  ~ occurs ("d=" +:+ dq) (v +:+ dq +:+ t) ->
  y +:+ ">" +:+ tail <> ("d=" +:+ dq) +:+ z.
Proof.
  intros E Hx Hn Ey.
  destruct y as [|c1 [|c2 [|c3 y]]]; simplify_eq/=.
  destruct x as [|e0 [|e1 [|e2 x]]]; simplify_eq/=.
  apply Hn. now exists x, y.
Qed.

Lemma no_path_before pre b a suf z :
  pre = a +:+ b -> b <> "" -> ~ occurs "<path" pre ->
  b +:+ "<path" +:+ suf <> "<path" +:+ z.
Proof.
  intros -> Hb Hn E.
  destruct b as [|c1 [|c2 [|c3 [|c4 [|c5 b]]]]]; simplify_eq/=.
  apply Hn. now exists a, b.
Qed.

(** The pattern at a tag whose [d] attribute is the last text of that form
    before the [>] of the tag: group 1 is the value of the attribute,
    whatever follows the tag. *)
Lemma pathRegex_first_tag pos sp attrs v t tail :
  is_space sp = true ->
  sall (not_char ">") attrs = true ->
  sall (not_char (ascii_of_nat 34)) v = true ->
  sall (not_char ">") v = true ->
  sall (not_char ">") t = true ->
  ~ occurs ("d=" +:+ dq) (v +:+ dq +:+ t) ->
  exists m,
    Outline.pathRegex pos
      ("<path" +:+ String sp (attrs +:+ ("d=" +:+ dq) +:+ v +:+ dq +:+ t +:+ ">" +:+ tail))
    = Some (m, v).
Proof.
  intros Hsp Hattrs Hv Hv' Ht Hn.
  assert (Esub : attrs +:+ ("d=" +:+ dq) +:+ v +:+ dq +:+ t +:+ ">" +:+ tail
                 = attrs +:+ (("d=" +:+ dq) +:+ v +:+ dq +:+ t) +:+ ">" +:+ tail).
  { now rewrite !sapp_assoc. }
  rewrite Esub.
  set (a2 := ("d=" +:+ dq) +:+ v +:+ dq +:+ t).
  set (b := ">" +:+ tail).
  set (s := "<path" +:+ String sp (attrs +:+ a2 +:+ b)).
  exists (consumed s (t +:+ b)).
  unfold Outline.pathRegex. fold s. unfold lit at 1.
  unfold s at 1. rewrite strip_prefix_app. cbn [cls]. rewrite Hsp.
  apply star_last_success.
  - exact Hattrs.
  - unfold a2. rewrite !sall_app, Hv', Ht. reflexivity.
  - reflexivity.
  - intros x y E Hx. unfold lit at 1.
    destruct (strip_prefix ("d=" +:+ dq) (y +:+ b)) as [z|] eqn:Ez; [|reflexivity].
    apply strip_prefix_Some in Ez. destruct (no_later_d v t x y tail z E Hx Hn Ez).
  - unfold lit at 1.
    assert (E2 : a2 +:+ b = ("d=" +:+ dq) +:+ v +:+ (dq +:+ t +:+ b)).
    { unfold a2. now rewrite !sapp_assoc. }
    rewrite E2, strip_prefix_app.
    apply star_whole_run; [exact Hv | reflexivity |].
    unfold lit. rewrite strip_prefix_app. f_equal. f_equal.
    apply (consumed_app v (dq +:+ t +:+ b)).
Qed.

(** The first [<path] of the markup, when it is such a tag, is the match. *)
Lemma pathMatch_first_tag pre sp attrs v t tail :
  ~ occurs "<path" pre ->
  is_space sp = true ->
  sall (not_char ">") attrs = true ->
  sall (not_char (ascii_of_nat 34)) v = true ->
  sall (not_char ">") v = true ->
  sall (not_char ">") t = true ->
  ~ occurs ("d=" +:+ dq) (v +:+ dq +:+ t) ->
  exists m,
    exec Outline.pathRegex 0
      (pre +:+ "<path" +:+ String sp (attrs +:+ ("d=" +:+ dq) +:+ v +:+ dq +:+ t +:+ ">" +:+ tail))
    = Some (m, v).
Proof.
  intros Hpre Hsp Hattrs Hv Hv' Ht Hn.
  destruct (pathRegex_first_tag (0 + String.length pre) sp attrs v t tail
              Hsp Hattrs Hv Hv' Ht Hn) as [m Em].
  exists m. rewrite exec_skip; [now apply exec_here|].
  intros a b E Hb. unfold Outline.pathRegex, lit at 1.
  destruct (strip_prefix "<path" _) as [z|] eqn:Ez; [|reflexivity].
  apply strip_prefix_Some in Ez.
  destruct (no_path_before pre b a _ z E Hb Hpre Ez).
Qed.

Lemma occurs_includes s sub : occurs sub s -> includes s sub = true.
Proof.
  intros (a & b & ->). induction a as [|c a IH].
  - change ("" +:+ sub +:+ b) with (sub +:+ b).
    destruct (sub +:+ b) eqn:E; simpl; rewrite <- E, strip_prefix_app; reflexivity.
  - rewrite sapp_cons. cbn [includes].
    destruct (strip_prefix sub _); [reflexivity | exact IH].
Qed.

Lemma not_includes_not_occurs s sub : includes s sub = false -> ~ occurs sub s.
Proof. intros E Ho. apply occurs_includes in Ho. congruence. Qed.

(** C4, at the input on which the code departs from it.  The markup
    [id_after_d] has two paths; the first has the path data M1 1 and, after
    its [d] attribute, an [id] attribute with the value p; the second has
    the path data M2 2.  In the first tag the run of characters other than
    [>] is given back only as far as the last text [d=] with an opening
    quote, which is the end of the [id] attribute: group 1 of the match is
    p.  The outline program writes the component with p as its path data,
    and the path data of the first path occur nowhere in the text written;
    those of the second path do not occur in it either. *)
Theorem first_d_value_is_not_emitted :
  (exists m, exec Outline.pathRegex 0 id_after_d = Some (m, "p"))
  /\ exists w' text,
       @Outline.convertSvgToReact sample_paths ["https://host/icons/two.svg"]
         (sample_world (markup_net id_after_d)) = (Ok tt, w')
       /\ files w' !! "/repo/src/assets/icons/TwoIcon.tsx" = Some text
       /\ text = trim (Outline.reactComponent "TwoIcon" "two" "p")
       /\ includes text ("d=" +:+ dq +:+ "p" +:+ dq) = true
       /\ includes text "M1 1" = false
       /\ includes text "M2 2" = false.
Proof.
  split.
  - eexists. vm_compute. reflexivity.
  - eexists _, _. split; [vm_compute; reflexivity|].
    split; [vm_compute; reflexivity|].
    split; [vm_compute; reflexivity|].
    split; [vm_compute; reflexivity|].
    split; vm_compute; reflexivity.
Qed.

(** * Further properties of the code *)

(** ** Name derivation on arbitrary input *)

Lemma toUpperCase_app a b : toUpperCase (a +:+ b) = toUpperCase a +:+ toUpperCase b.
Proof.
  unfold toUpperCase. induction a as [|c a IH]; simpl; [reflexivity | now rewrite IH].
Qed.

Lemma toUpperCase_camel up s :
  toUpperCase (camel up s) = toUpperCase (sfilter (not_char "-") s).
Proof.
  revert up. induction s as [|c s IH]; intros up; [reflexivity|].
  rewrite camel_cons, sfilter_cons, not_hyphen_eq.
  destruct (is_char "-" c); cbn [negb]; [apply IH|].
  unfold toUpperCase in *. cbn [smap]. rewrite IH.
  destruct up; [now rewrite upper_idem | reflexivity].
Qed.

(** X1.  Whatever the input is, [toPascalCase] only deletes hyphens, changes
    the case of letters and appends [Icon]: in upper case, its result is the
    input without its hyphens, followed by [ICON]. *)
Theorem toPascalCase_keeps_all_but_hyphens (s : string) :
  toUpperCase (toPascalCase s) = toUpperCase (sfilter (not_char "-") s) +:+ "ICON".
Proof.
  rewrite toPascalCase_camel, toUpperCase_app, toUpperCase_camel. reflexivity.
Qed.

Lemma last_segment_exists url : exists seg, last_segment url seg.
Proof.
  induction url as [|c url (seg & Hs & Hu)].
  - exists "". split; [reflexivity | now left].
  - destruct Hu as [-> | (dir & ->)].
    + destruct (is_char "/" c) eqn:Hc.
      * apply bool_decide_eq_true in Hc. subst c.
        exists seg. split; [exact Hs|]. right. now exists "".
      * exists (String c seg). split; [|now left].
        simpl. unfold not_char at 1. now rewrite Hc, Hs.
    + exists seg. split; [exact Hs|]. right. now exists (String c dir).
Qed.

Lemma sall_sdrop p n s : sall p s = true -> sall p (sdrop n s) = true.
Proof.
  revert s. induction n as [|n IH]; intros [|c s]; simpl; auto.
  intros [_ Hs]%andb_prop. auto.
Qed.

Lemma sall_replace_first_delete p re pos s :
  sall p s = true -> sall p (replace_first re (fun _ => "") pos s) = true.
Proof.
  revert pos. induction s as [|c s IH]; intros pos Hs.
  - simpl. destruct (re pos ""); [now apply sall_sdrop | reflexivity].
  - cbn [replace_first]. destruct (re pos (String c s)).
    + now apply sall_sdrop.
    + simpl in *. apply andb_prop in Hs as [Hc Hs]. now rewrite Hc, IH.
Qed.

Lemma upper_not_slash (c : ascii) : not_char "/" c = true -> not_char "/" (upper c) = true.
Proof. ascii_cases c; vm_compute; congruence. Qed.

Lemma camel_no_slash up s :
  sall (not_char "/") s = true -> sall (not_char "/") (camel up s) = true.
Proof.
  revert up. induction s as [|c s IH]; intros up; [reflexivity|].
  simpl. intros [Hc Hs]%andb_prop.
  destruct (is_char "-" c); [now apply IH|].
  simpl. rewrite (IH false Hs), andb_true_r.
  destruct up; [now apply upper_not_slash | exact Hc].
Qed.

Lemma getFileNameFromUrl_no_slash url :
  sall (not_char "/") (getFileNameFromUrl url) = true.
Proof.
  destruct (last_segment_exists url) as [seg Hseg].
  unfold getFileNameFromUrl. rewrite (last_segment_substring url seg Hseg).
  apply sall_replace_first_delete. now destruct Hseg.
Qed.

(** X2.  Whatever the URL is, the file name taken from it has no slash, and
    the icon name derived from it has neither a slash nor a hyphen: the name
    of the output file never names a directory of its own. *)
Theorem icon_name_has_no_separator (url : string) :
  sall (not_char "/") (getFileNameFromUrl url) = true
  /\ sall (not_char "/") (iconNameOf url) = true
  /\ sall (not_char "-") (iconNameOf url) = true.
Proof.
  split; [apply getFileNameFromUrl_no_slash|].
  unfold iconNameOf. rewrite toPascalCase_camel, !sall_app. split.
  - rewrite camel_no_slash by apply getFileNameFromUrl_no_slash. reflexivity.
  - rewrite camel_no_hyphen. reflexivity.
Qed.

(** X3.  A URL that ends in a slash has the empty file name, so every such
    URL is given the icon name [Icon]. *)
Theorem trailing_slash_gives_Icon (dir : string) :
  getFileNameFromUrl (dir +:+ "/") = "" /\ iconNameOf (dir +:+ "/") = "Icon".
Proof.
  assert (E : getFileNameFromUrl (dir +:+ "/") = "").
  { apply getFileNameFromUrl_keeps_other.
    - split; [reflexivity|]. right. exists dir. now rewrite sapp_nil_r.
    - intros (a & b & E). destruct a; discriminate. }
  split; [exact E|]. unfold iconNameOf. now rewrite E.
Qed.

(** ** The output directory *)

Section Directory.
Context `{PathModule}.



End Directory.


(** ** The source lister on any reply *)

Lemma listing_or_not d :
  (exists entries, d = Listing entries) \/ forall entries, d <> Listing entries.
Proof. destruct d; eauto; right; discriminate. Qed.

Lemma entry_error_is_type_error bad : exists msg, entry_error bad = TypeError msg.
Proof. destruct bad; eexists; reflexivity. Qed.

(** A 2xx reply whose data are not an array of well-typed entries: the
    type error, of [files.forEach] or of the callback, is caught. *)
Lemma fetchGithubSvgUrls_not_an_array repo path w st d :
  http w (githubApiUrl repo path) = Response st d -> status_ok st = true ->
  (forall entries, d <> Listing entries) ->
  exists msg,
    fetchGithubSvgUrls repo path w
    = (Ok [], logged [log_listing_error (TypeError msg)] w)
    /\ (d = Null -> msg = "Cannot read properties of null (reading 'forEach')")
    /\ ((exists text, d = Text text) \/ d = Other ->
        msg = "files.forEach is not a function").
Proof.
  intros Hh Hs Hd.
  assert (E : forall msg,
             as_array "files" "forEach" d w = (Throw (TypeError msg), w) ->
             fetchGithubSvgUrls repo path w
             = (Ok [], logged [log_listing_error (TypeError msg)] w)).
  { intros msg Ea. unfold fetchGithubSvgUrls.
    erewrite try_catch_throw; [reflexivity|].
    erewrite bind_ok by (apply (axios_get_ok _ _ st d); assumption).
    erewrite bind_throw by exact Ea. reflexivity. }
  destruct d as [t|l| |before bad|].
  - eexists. split; [apply E; reflexivity|]. split; [discriminate | reflexivity].
  - now destruct (Hd l).
  - eexists. split; [apply E; reflexivity|]. split; [reflexivity|].
    intros [[t Et]|Et]; discriminate.
  - destruct (entry_error_is_type_error bad) as [msg Em].
    exists msg. split; [apply E; cbn [as_array]; now rewrite Em|].
    split; [discriminate|]. intros [[t Et]|Et]; discriminate.
  - eexists. split; [apply E; reflexivity|]. split; [discriminate | reflexivity].
Qed.

Lemma fetchGithubSvgUrls_outcome (repo path : string) (w : World) :
  exists urls e,
    fetchGithubSvgUrls repo path w = (Ok urls, logged [e] w)
    /\ ((exists st entries,
           http w (githubApiUrl repo path) = Response st (Listing entries)
           /\ status_ok st = true
           /\ urls = collectSvgUrls entries /\ e = log_total (length urls))
        \/ (urls = [] /\ request_fails w (githubApiUrl repo path)
            /\ exists err, e = log_listing_error err)
        \/ (urls = []
            /\ exists st d msg,
                 http w (githubApiUrl repo path) = Response st d
                 /\ status_ok st = true
                 /\ (forall entries, d <> Listing entries)
                 /\ e = log_listing_error (TypeError msg)
                 /\ (d = Null ->
                     msg = "Cannot read properties of null (reading 'forEach')")
                 /\ ((exists text, d = Text text) \/ d = Other ->
                     msg = "files.forEach is not a function"))).
Proof.
  destruct (http w (githubApiUrl repo path)) as [st d|] eqn:Hh.
  - destruct (status_ok st) eqn:Hs.
    + destruct (listing_or_not d) as [[entries ->]|Hd].
      * eexists _, _. split; [exact (fetchGithubSvgUrls_ok repo path w st entries Hh Hs)|].
        left. now exists st, entries.
      * destruct (fetchGithubSvgUrls_not_an_array repo path w st d Hh Hs Hd)
          as (msg & E & Hnull & Hother).
        eexists [], _. split; [exact E|].
        right. right. split; [reflexivity|]. now exists st, d, msg.
    + assert (Hf : request_fails w (githubApiUrl repo path)).
      { right. now exists st, d. }
      destruct (fetchGithubSvgUrls_request_fails repo path w Hf) as [err E].
      eexists [], _. split; [exact E|]. right. left. eauto.
  - assert (Hf : request_fails w (githubApiUrl repo path)) by now left.
    destruct (fetchGithubSvgUrls_request_fails repo path w Hf) as [err E].
    eexists [], _. split; [exact E|]. right. left. eauto.
Qed.

(** X5.  On every reply [fetchGithubSvgUrls] throws nothing, touches no
    file and writes exactly one log entry.  When the reply is a 2xx array
    of entries with a string name and a string download URL, it returns the
    collected URLs and logs their number.  When the request fails, it
    returns the empty list and logs the error.  When the reply is 2xx and
    its data are anything else, a type error is caught: the empty list is
    returned and the error logged, not a number.  That error is the one of
    reading [forEach] of [null] when the data are [null], the one of
    [files.forEach] not being a function when they are a string, a number,
    a boolean or an object, and a type error thrown inside the callback
    when they are an array with an entry at which it throws. *)
Theorem fetchGithubSvgUrls_never_throws (repo path : string) (w : World) :
  exists urls e,
    fetchGithubSvgUrls repo path w = (Ok urls, logged [e] w)
    /\ ((exists st entries,
           http w (githubApiUrl repo path) = Response st (Listing entries)
           /\ status_ok st = true
           /\ urls = collectSvgUrls entries /\ e = log_total (length urls))
        \/ (urls = [] /\ request_fails w (githubApiUrl repo path)
            /\ exists err, e = log_listing_error err)
        \/ (urls = []
            /\ exists st d msg,
                 http w (githubApiUrl repo path) = Response st d
                 /\ status_ok st = true
                 /\ (forall entries, d <> Listing entries)
                 /\ e = log_listing_error (TypeError msg)
                 /\ (d = Null ->
                     msg = "Cannot read properties of null (reading 'forEach')")
                 /\ ((exists text, d = Text text) \/ d = Other ->
                     msg = "files.forEach is not a function"))).
Proof. apply fetchGithubSvgUrls_outcome. Qed.

(** ** The outcome of one iteration *)

Lemma same_surroundings_refl w : same_surroundings w w.
Proof. repeat split. Qed.

Lemma same_surroundings_trans w1 w2 w3 :
  same_surroundings w1 w2 -> same_surroundings w2 w3 -> same_surroundings w1 w3.
Proof. intros (? & ? & ?) (? & ? & ?). repeat split; congruence. Qed.

Lemma grows_same_surroundings w w' : grows w w' -> same_surroundings w w'.
Proof. intros (? & ? & ? & _). now repeat split. Qed.

Section OutlineOutcome.
Context `{PathModule}.

(** The [try] block ends in one of three ways. *)
Lemma outline_convertOne_outcome url w :
  exists r w',
    Outline.convertOne url w = (r, w')
    /\ same_surroundings w w'
    /\ ((r = Ok tt
         /\ console w' = console w ++ [log_fetching url; log_saved (iconNameOf url)]
         /\ exists d,
              files w'
              = <[ Outline.outputPath (cwd w) (iconNameOf url)
                   := trim (Outline.reactComponent (iconNameOf url)
                              (getFileNameFromUrl url) d) ]> (files w))
        \/ (r = Ok tt
            /\ console w'
               = console w ++ [log_fetching url; log_no_path (getFileNameFromUrl url)]
            /\ files w' = files w)
        \/ (exists e, r = Throw e
            /\ console w' = console w ++ [log_fetching url]
            /\ files w' = files w)).
Proof.
  set (w1 := logged [log_fetching url] w).
  unfold Outline.convertOne. erewrite bind_ok by reflexivity. fold w1.
  destruct (axios_get_any url w1) as [[data|e] E];
    [erewrite bind_ok by exact E
    |erewrite bind_throw by exact E; eexists _, _; split; [reflexivity|];
     split; [repeat split|]; right; right; eauto].
  destruct data as [body|l| |before bad|];
    [erewrite bind_ok by reflexivity
    |erewrite bind_throw by reflexivity; eexists _, _; split; [reflexivity|];
     split; [repeat split|]; right; right; eauto ..].
  destruct (exec Outline.pathRegex 0 body) as [[m d]|].
  - erewrite bind_ok by reflexivity. fold (iconNameOf url). cbn [cwd w1 logged with_console].
    set (p := Outline.outputPath (cwd w) (iconNameOf url)).
    destruct (ensureDirectoryExistence_any p w1) as (r2 & w2 & E2 & Hf2 & Hc2 & Hg2).
    pose proof (grows_same_surroundings _ _ Hg2) as Hs2.
    destruct r2 as [b|e].
    + erewrite bind_ok by exact E2.
      unfold writeFileSync at 1. unfold bind at 1.
      destruct (denied w2 p).
      * eexists _, w2. split; [reflexivity|]. split; [exact Hs2|].
        right. right. exists (FsError "open" p). now rewrite Hf2, Hc2.
      * eexists _, _. split; [reflexivity|]. split.
        { destruct Hs2 as (? & ? & ?). now repeat split. }
        left. split; [reflexivity|]. split.
        -- cbn. rewrite Hc2. cbn. now rewrite <- app_assoc.
        -- exists d. cbn. now rewrite Hf2.
    + erewrite bind_throw by exact E2.
      eexists _, w2. split; [reflexivity|]. split; [exact Hs2|].
      right. right. exists e. now rewrite Hf2, Hc2.
  - eexists _, _. split; [reflexivity|]. split; [repeat split|].
    right. left. split; [reflexivity|]. split; [|reflexivity].
    cbn. now rewrite <- app_assoc.
Qed.

Lemma outline_convertItem_outcome (url : string) (w : World) :
  exists w' e,
    Outline.convertItem url w = (Ok tt, w')
    /\ same_surroundings w w'
    /\ console w' = console w ++ [log_fetching url; e]
    /\ ((e = log_saved (iconNameOf url)
         /\ exists d,
              files w'
              = <[ Outline.outputPath (cwd w) (iconNameOf url)
                   := trim (Outline.reactComponent (iconNameOf url)
                              (getFileNameFromUrl url) d) ]> (files w))
        \/ (e <> log_saved (iconNameOf url) /\ files w' = files w)).
Proof.
  destruct (outline_convertOne_outcome url w)
    as (r & w1 & E & Hs & [(-> & Hc & Hf) | [(-> & Hc & Hf) | (e & -> & Hc & Hf)]]).
  - exists w1, (log_saved (iconNameOf url)). unfold Outline.convertItem.
    rewrite (try_catch_ok _ _ _ _ _ E).
    split; [reflexivity|]. split; [exact Hs|]. split; [exact Hc|].
    left. split; [reflexivity | exact Hf].
  - exists w1, (log_no_path (getFileNameFromUrl url)). unfold Outline.convertItem.
    rewrite (try_catch_ok _ _ _ _ _ E).
    split; [reflexivity|]. split; [exact Hs|]. split; [exact Hc|].
    right. split; [discriminate | exact Hf].
  - exists (logged [log_item_error url e] w1), (log_item_error url e).
    unfold Outline.convertItem. rewrite (try_catch_throw _ _ _ _ _ E).
    split; [reflexivity|]. split; [exact Hs|]. split.
    + cbn. rewrite Hc. now rewrite <- app_assoc.
    + right. split; [discriminate | exact Hf].
Qed.

(** X6.  In the outline program the loop body for one URL throws nothing
    and keeps the surroundings; it writes two log entries, the announcement
    of the URL and one outcome; the outcome is the message that the
    component was saved exactly when a file was written, and then the one
    file is the output file of the icon, holding the trimmed template for
    some path data; with every other outcome the files are as they were. *)
Theorem outline_iteration_outcome (url : string) (w : World) :
  exists w' e,
    Outline.convertItem url w = (Ok tt, w')
    /\ same_surroundings w w'
    /\ console w' = console w ++ [log_fetching url; e]
    /\ ((e = log_saved (iconNameOf url)
         /\ exists d,
              files w'
              = <[ Outline.outputPath (cwd w) (iconNameOf url)
                   := trim (Outline.reactComponent (iconNameOf url)
                              (getFileNameFromUrl url) d) ]> (files w))
        \/ (e <> log_saved (iconNameOf url) /\ files w' = files w)).
Proof. apply outline_convertItem_outcome. Qed.

End OutlineOutcome.

Section SolidOutcome.
Context `{PathModule} `{MarkupLibraries}.

Lemma solid_convertOne_outcome url w :
  exists r w',
    Solid.convertOne url w = (r, w')
    /\ same_surroundings w w'
    /\ ((r = Ok tt
         /\ console w' = console w ++ [log_fetching url; log_saved (iconNameOf url)]
         /\ exists data optimized code,
              optimize data = Some optimized
              /\ prettier_format
                   (Solid.reactComponent (iconNameOf url) (getFileNameFromUrl url)
                      (svg_html optimized)) = Some code
              /\ files w' = <[ Solid.outputPath (cwd w) (iconNameOf url) := code ]> (files w))
        \/ (exists e, r = Throw e
            /\ console w' = console w ++ [log_fetching url]
            /\ files w' = files w)).
Proof.
  set (w1 := logged [log_fetching url] w).
  unfold Solid.convertOne. erewrite bind_ok by reflexivity. fold w1.
  destruct (axios_get_any url w1) as [[data|e] E];
    [erewrite bind_ok by exact E
    |erewrite bind_throw by exact E; eexists _, _; split; [reflexivity|];
     split; [repeat split|]; right; eauto].
  destruct (optimize data) as [optimized|] eqn:Eo; cbn [Solid.lib_call];
    [erewrite bind_ok by reflexivity
    |erewrite bind_throw by reflexivity; eexists _, _; split; [reflexivity|];
     split; [repeat split|]; right; eauto].
  fold (iconNameOf url).
  destruct (prettier_format _) as [code|] eqn:Ep; cbn [Solid.lib_call];
    [erewrite bind_ok by reflexivity
    |erewrite bind_throw by reflexivity; eexists _, _; split; [reflexivity|];
     split; [repeat split|]; right; eauto].
  erewrite bind_ok by reflexivity. cbn [cwd w1 logged with_console].
  set (p := Solid.outputPath (cwd w) (iconNameOf url)).
  destruct (ensureDirectoryExistence_any p w1) as (r2 & w2 & E2 & Hf2 & Hc2 & Hg2).
  pose proof (grows_same_surroundings _ _ Hg2) as Hs2.
  destruct r2 as [b|e].
  - erewrite bind_ok by exact E2.
    unfold writeFileSync at 1. unfold bind at 1.
    destruct (denied w2 p).
    + eexists _, w2. split; [reflexivity|]. split; [exact Hs2|].
      right. exists (FsError "open" p). now rewrite Hf2, Hc2.
    + eexists _, _. split; [reflexivity|]. split.
      { destruct Hs2 as (? & ? & ?). now repeat split. }
      left. split; [reflexivity|]. split.
      * cbn. rewrite Hc2. cbn. now rewrite <- app_assoc.
      * exists data, optimized, code. split; [exact Eo|]. split; [exact Ep|].
        cbn. now rewrite Hf2.
  - erewrite bind_throw by exact E2.
    eexists _, w2. split; [reflexivity|]. split; [exact Hs2|].
    right. exists e. now rewrite Hf2, Hc2.
Qed.

Lemma solid_convertItem_outcome (url : string) (w : World) :
  exists w' e,
    Solid.convertItem url w = (Ok tt, w')
    /\ same_surroundings w w'
    /\ console w' = console w ++ [log_fetching url; e]
    /\ ((e = log_saved (iconNameOf url)
         /\ exists data optimized code,
              optimize data = Some optimized
              /\ prettier_format
                   (Solid.reactComponent (iconNameOf url) (getFileNameFromUrl url)
                      (svg_html optimized)) = Some code
              /\ files w' = <[ Solid.outputPath (cwd w) (iconNameOf url) := code ]> (files w))
        \/ (e <> log_saved (iconNameOf url) /\ files w' = files w)).
Proof.
  destruct (solid_convertOne_outcome url w)
    as (r & w1 & E & Hs & [(-> & Hc & Hf) | (e & -> & Hc & Hf)]).
  - exists w1, (log_saved (iconNameOf url)). unfold Solid.convertItem.
    rewrite (try_catch_ok _ _ _ _ _ E).
    split; [reflexivity|]. split; [exact Hs|]. split; [exact Hc|].
    left. split; [reflexivity | exact Hf].
  - exists (logged [log_item_error url e] w1), (log_item_error url e).
    unfold Solid.convertItem. rewrite (try_catch_throw _ _ _ _ _ E).
    split; [reflexivity|]. split; [exact Hs|]. split.
    + cbn. rewrite Hc. now rewrite <- app_assoc.
    + right. split; [discriminate | exact Hf].
Qed.

(** X7.  In the solid program the loop body for one URL throws nothing and
    keeps the surroundings; it writes two log entries, the announcement of
    the URL and one outcome; the outcome is the message that the component
    was saved exactly when a file was written, and then the one file is the
    output file of the icon and its text is what [prettier] made of the
    template, untrimmed; with every other outcome the files are as they
    were. *)
Theorem solid_iteration_outcome (url : string) (w : World) :
  exists w' e,
    Solid.convertItem url w = (Ok tt, w')
    /\ same_surroundings w w'
    /\ console w' = console w ++ [log_fetching url; e]
    /\ ((e = log_saved (iconNameOf url)
         /\ exists data optimized code,
              optimize data = Some optimized
              /\ prettier_format
                   (Solid.reactComponent (iconNameOf url) (getFileNameFromUrl url)
                      (svg_html optimized)) = Some code
              /\ files w' = <[ Solid.outputPath (cwd w) (iconNameOf url) := code ]> (files w))
        \/ (e <> log_saved (iconNameOf url) /\ files w' = files w)).
Proof. apply solid_convertItem_outcome. Qed.

End SolidOutcome.

(** ** The log and the files of a batch *)

Lemma for_of_app {A} (l1 l2 : list A) body w w1 :
  for_of l1 body w = (Ok tt, w1) -> for_of (l1 ++ l2) body w = for_of l2 body w1.
Proof.
  revert w. induction l1 as [|x l1 IH]; intros w; cbn [for_of app].
  - now intros [= ->].
  - unfold bind. destruct (body x w) as [[[]|e] w0]; [apply IH | discriminate].
Qed.

Section Outcomes.
Variable item : string -> IO unit.
Variable path : string -> string -> string.
Hypothesis item_outcome :
  forall url w, exists w' e,
    item url w = (Ok tt, w')
    /\ same_surroundings w w'
    /\ console w' = console w ++ [log_fetching url; e]
    /\ (files w' = files w \/ exists text, files w' = <[ path (cwd w) url := text ]> (files w)).

Lemma for_of_outcomes urls w :
  exists w' outcomes,
    for_of urls item w = (Ok tt, w')
    /\ same_surroundings w w'
    /\ length outcomes = length urls
    /\ console w' = console w ++ batch_log urls outcomes
    /\ forall p, (forall u, u ∈ urls -> p <> path (cwd w) u) ->
       files w' !! p = files w !! p.
Proof.
  revert w. induction urls as [|u urls IH]; intros w.
  - exists w, []. split; [reflexivity|]. split; [apply same_surroundings_refl|].
    split; [reflexivity|]. split; [|reflexivity].
    unfold batch_log. simpl. now rewrite app_nil_r.
  - destruct (item_outcome u w) as (w1 & e & E1 & Hs1 & Hc1 & Hf1).
    destruct (IH w1) as (w' & es & E' & Hs' & Hl & Hc' & Hf').
    exists w', (e :: es). split.
    { cbn [for_of]. now rewrite (bind_ok _ _ _ _ _ E1). }
    split; [exact (same_surroundings_trans _ _ _ Hs1 Hs')|].
    split; [simpl; now rewrite Hl|]. split.
    + rewrite Hc', Hc1. unfold batch_log. simpl. now rewrite <- app_assoc.
    + intros p Hp. destruct Hs1 as (Hcwd & _). rewrite Hf'.
      * destruct Hf1 as [-> | (text & ->)]; [reflexivity|].
        apply lookup_insert_ne. intros Heq. apply (Hp u); [left | now symmetry].
      * intros u' Hu'. rewrite Hcwd. apply Hp. now right.
Qed.

End Outcomes.

Section BatchOutcome.
Context `{PathModule} `{MarkupLibraries}.

Lemma outline_item_outcome url w :
  exists w' e,
    Outline.convertItem url w = (Ok tt, w')
    /\ same_surroundings w w'
    /\ console w' = console w ++ [log_fetching url; e]
    /\ (files w' = files w
        \/ exists text,
             files w' = <[ Outline.outputPath (cwd w) (iconNameOf url) := text ]> (files w)).
Proof.
  destruct (outline_convertItem_outcome url w)
    as (w' & e & E & Hs & Hc & [(_ & d & Hf) | (_ & Hf)]);
    exists w', e; repeat split; try apply Hs; eauto.
Qed.

Lemma solid_item_outcome url w :
  exists w' e,
    Solid.convertItem url w = (Ok tt, w')
    /\ same_surroundings w w'
    /\ console w' = console w ++ [log_fetching url; e]
    /\ (files w' = files w
        \/ exists text,
             files w' = <[ Solid.outputPath (cwd w) (iconNameOf url) := text ]> (files w)).
Proof.
  destruct (solid_convertItem_outcome url w)
    as (w' & e & E & Hs & Hc & [(_ & data & o & code & _ & _ & Hf) | (_ & Hf)]);
    exists w', e; repeat split; try apply Hs; eauto.
Qed.

Lemma outline_convertSvgToReact_outcome urls w :
  exists w' outcomes,
    Outline.convertSvgToReact urls w = (Ok tt, w')
    /\ same_surroundings w w'
    /\ length outcomes = length urls
    /\ console w' = console w ++ log_processing (length urls) :: batch_log urls outcomes
    /\ forall p,
         (forall u, u ∈ urls -> p <> Outline.outputPath (cwd w) (iconNameOf u)) ->
         files w' !! p = files w !! p.
Proof.
  destruct (for_of_outcomes Outline.convertItem
              (fun cwd url => Outline.outputPath cwd (iconNameOf url))
              outline_item_outcome urls (logged [log_processing (length urls)] w))
    as (w' & es & E & Hs & Hl & Hc & Hf).
  exists w', es. split.
  { unfold Outline.convertSvgToReact. now erewrite bind_ok by reflexivity. }
  split; [exact Hs|]. split; [exact Hl|]. split; [|exact Hf].
  rewrite Hc. cbn. now rewrite <- app_assoc.
Qed.

Lemma solid_convertSvgToReact_outcome urls w :
  exists w' outcomes,
    Solid.convertSvgToReact urls w = (Ok tt, w')
    /\ same_surroundings w w'
    /\ length outcomes = length urls
    /\ console w' = console w ++ log_processing (length urls) :: batch_log urls outcomes
    /\ forall p,
         (forall u, u ∈ urls -> p <> Solid.outputPath (cwd w) (iconNameOf u)) ->
         files w' !! p = files w !! p.
Proof.
  destruct (for_of_outcomes Solid.convertItem
              (fun cwd url => Solid.outputPath cwd (iconNameOf url))
              solid_item_outcome urls (logged [log_processing (length urls)] w))
    as (w' & es & E & Hs & Hl & Hc & Hf).
  exists w', es. split.
  { unfold Solid.convertSvgToReact. now erewrite bind_ok by reflexivity. }
  split; [exact Hs|]. split; [exact Hl|]. split; [|exact Hf].
  rewrite Hc. cbn. now rewrite <- app_assoc.
Qed.

(** X8.  In both programs the log of a batch is the count of the URLs
    followed, for each URL in the order of the batch, by its announcement
    and one entry for its outcome: the URLs are taken up one after the
    other, and each leaves exactly two entries. *)
Theorem batch_log_in_order (urls : list string) (w : World) :
  (exists w' outcomes,
     Outline.convertSvgToReact urls w = (Ok tt, w')
     /\ length outcomes = length urls
     /\ console w' = console w ++ log_processing (length urls) :: batch_log urls outcomes)
  /\ (exists w' outcomes,
       Solid.convertSvgToReact urls w = (Ok tt, w')
       /\ length outcomes = length urls
       /\ console w' = console w ++ log_processing (length urls) :: batch_log urls outcomes).
Proof.
  split.
  - destruct (outline_convertSvgToReact_outcome urls w) as (w' & es & E & _ & Hl & Hc & _).
    now exists w', es.
  - destruct (solid_convertSvgToReact_outcome urls w) as (w' & es & E & _ & Hl & Hc & _).
    now exists w', es.
Qed.

(** X9.  In both programs a batch changes no file other than the output
    files of its URLs: a path that is the output path of none of them has
    the same text, or is as absent, after the batch as before. *)
Theorem batch_touches_only_its_outputs (urls : list string) (w : World) (p : string) :
  ((forall u, u ∈ urls -> p <> Outline.outputPath (cwd w) (iconNameOf u)) ->
   exists w', Outline.convertSvgToReact urls w = (Ok tt, w')
              /\ files w' !! p = files w !! p)
  /\ ((forall u, u ∈ urls -> p <> Solid.outputPath (cwd w) (iconNameOf u)) ->
      exists w', Solid.convertSvgToReact urls w = (Ok tt, w')
                 /\ files w' !! p = files w !! p).
Proof.
  split; intros Hp.
  - destruct (outline_convertSvgToReact_outcome urls w) as (w' & es & E & _ & _ & _ & Hf).
    exists w'. auto.
  - destruct (solid_convertSvgToReact_outcome urls w) as (w' & es & E & _ & _ & _ & Hf).
    exists w'. auto.
Qed.

(** X10.  In the outline program a file is overwritten without a check: the
    output file of a URL that can be fetched, matched and written holds, at
    the end of the batch, the component of that URL whatever was written
    there before, provided no later URL of the batch has the same output
    path. *)
Theorem later_url_overwrites (before after : list string) (url : string) (w : World)
    (st : nat) (body m d : string) :
  let out := Outline.outputPath (cwd w) (iconNameOf url) in
  http w url = Response st (Text body) ->
  status_ok st = true ->
  exec Outline.pathRegex 0 body = Some (m, d) ->
  denied w (dirname out) = false ->
  denied w out = false ->
  (forall u, u ∈ after -> Outline.outputPath (cwd w) (iconNameOf u) <> out) ->
  exists w',
    Outline.convertSvgToReact (before ++ url :: after) w = (Ok tt, w')
    /\ files w' !! out
       = Some (trim (Outline.reactComponent (iconNameOf url) (getFileNameFromUrl url) d)).
Proof.
  intros out Hh Hst Hm Hdir Hfile Hafter.
  set (w0 := logged [log_processing (length (before ++ url :: after))] w).
  destruct (for_of_outcomes Outline.convertItem
              (fun cwd url => Outline.outputPath cwd (iconNameOf url))
              outline_item_outcome before w0) as (w1 & es1 & E1 & Hs1 & _).
  destruct Hs1 as (Hc1 & Hh1 & Hd1). cbn in Hc1, Hh1, Hd1.
  destruct (outline_convertItem_writes url w1 st body m d) as (w2 & E2 & Hf2 & _ & Hg2);
    try (rewrite ?Hc1, ?Hh1, ?Hd1; assumption).
  destruct (for_of_outcomes Outline.convertItem
              (fun cwd url => Outline.outputPath cwd (iconNameOf url))
              outline_item_outcome after w2) as (w3 & es3 & E3 & _ & _ & _ & Hf3).
  assert (Hc2 : cwd w2 = cwd w) by (destruct Hg2 as (-> & _); exact Hc1).
  exists w3. split.
  - unfold Outline.convertSvgToReact. erewrite bind_ok by reflexivity. fold w0.
    rewrite (for_of_app _ _ _ _ _ E1). cbn [for_of].
    now rewrite (bind_ok _ _ _ _ _ E2).
  - rewrite Hf3.
    + rewrite Hf2, Hc1. apply lookup_insert_eq.
    + intros u Hu. rewrite Hc2. intros Heq. now apply (Hafter u Hu).
Qed.

End BatchOutcome.

Lemma batch_touches_only_its_outputs_witness :
  exists w',
    @Outline.convertSvgToReact sample_paths
      ["https://host/icons/a.svg"; "https://host/icons/b.svg"; "https://host/icons/c.svg"]
      (sample_world batch_net) = (Ok tt, w')
    /\ files w' !! "/repo/package.json" = None.
Proof.
  apply (proj1 (@batch_touches_only_its_outputs sample_paths sample_libraries
                  ["https://host/icons/a.svg"; "https://host/icons/b.svg";
                   "https://host/icons/c.svg"]
                  (sample_world batch_net) "/repo/package.json")).
  intros u Hu E. apply list_elem_of_In in Hu. simpl in Hu.
  destruct Hu as [<- | [<- | [<- | []]]]; vm_compute in E; discriminate.
Defined.

Lemma later_url_overwrites_witness :
  exists w',
    @Outline.convertSvgToReact sample_paths
      ["https://host/solid/a.svg"; "https://host/outline/a.svg"]
      (sample_world collision_net) = (Ok tt, w')
    /\ files w' !! "/repo/src/assets/icons/AIcon.tsx"
       = Some (trim (Outline.reactComponent "AIcon" "a" "M2 2")).
Proof.
  apply (@later_url_overwrites sample_paths ["https://host/solid/a.svg"] []
           "https://host/outline/a.svg" (sample_world collision_net) 200
           (svg_of "M2 2") ("<path d=" +:+ dq +:+ "M2 2" +:+ dq) "M2 2");
    try reflexivity.
  intros u Hu. inversion Hu.
Defined.

(** ** The whole program *)

Section Program.
Context `{PathModule} `{MarkupLibraries}.

(** X11.  Both programs run to their end whatever the network and the file
    system do: the lister returns some list of URLs with one log entry, the
    loop goes through exactly that list, nothing is thrown to the top level,
    the surroundings are kept, and no file other than an output file of an
    icon is changed. *)
Theorem program_runs_to_completion (w : World) :
  (exists urls e w' outcomes,
     fetchGithubSvgUrls "tailwindlabs/heroicons" "src/24/outline" w = (Ok urls, logged [e] w)
     /\ Outline.processGithubSvgs w = (Ok tt, w')
     /\ same_surroundings w w'
     /\ length outcomes = length urls
     /\ console w'
        = console w ++ e :: log_processing (length urls) :: batch_log urls outcomes
     /\ forall p, (forall name, p <> Outline.outputPath (cwd w) name) ->
        files w' !! p = files w !! p)
  /\ (exists urls e w' outcomes,
       fetchGithubSvgUrls "tailwindlabs/heroicons" "src/24/solid" w = (Ok urls, logged [e] w)
       /\ Solid.processGithubSvgs w = (Ok tt, w')
       /\ same_surroundings w w'
       /\ length outcomes = length urls
       /\ console w'
          = console w ++ e :: log_processing (length urls) :: batch_log urls outcomes
       /\ forall p, (forall name, p <> Solid.outputPath (cwd w) name) ->
          files w' !! p = files w !! p).
Proof.
  split.
  - destruct (fetchGithubSvgUrls_outcome "tailwindlabs/heroicons" "src/24/outline" w)
      as (urls & e & E & _).
    destruct (outline_convertSvgToReact_outcome urls (logged [e] w))
      as (w' & es & E' & Hs & Hl & Hc & Hf).
    exists urls, e, w', es. split; [exact E|]. split.
    { unfold Outline.processGithubSvgs. now rewrite (bind_ok _ _ _ _ _ E). }
    split; [exact Hs|]. split; [exact Hl|]. split.
    + rewrite Hc. cbn. now rewrite <- app_assoc.
    + intros p Hp. rewrite Hf; [reflexivity|]. intros u _. apply Hp.
  - destruct (fetchGithubSvgUrls_outcome "tailwindlabs/heroicons" "src/24/solid" w)
      as (urls & e & E & _).
    destruct (solid_convertSvgToReact_outcome urls (logged [e] w))
      as (w' & es & E' & Hs & Hl & Hc & Hf).
    exists urls, e, w', es. split; [exact E|]. split.
    { unfold Solid.processGithubSvgs. now rewrite (bind_ok _ _ _ _ _ E). }
    split; [exact Hs|]. split; [exact Hl|]. split.
    + rewrite Hc. cbn. now rewrite <- app_assoc.
    + intros p Hp. rewrite Hf; [reflexivity|]. intros u _. apply Hp.
Qed.

End Program.

(** ** Failures inside an iteration *)

Section ItemFailures.
Context `{PathModule} `{MarkupLibraries}.

Lemma item_error_logged url e w :
  logged [log_item_error url e] (logged [log_fetching url] w)
  = logged [log_fetching url; log_item_error url e] w.
Proof. unfold logged, with_console. cbn. now rewrite <- app_assoc. Qed.

(** X12.  In the outline program a refusal of the file system stays within
    its iteration.  When the file cannot be written, the error of the write
    is logged for the URL and the files are as they were; when the output
    directory is missing and cannot be created, the error of the creation is
    logged and nothing else changes. *)
Theorem outline_file_system_refusal (url : string) (w : World) (st : nat)
    (body m d : string) :
  let out := Outline.outputPath (cwd w) (iconNameOf url) in
  http w url = Response st (Text body) ->
  status_ok st = true ->
  exec Outline.pathRegex 0 body = Some (m, d) ->
  (denied w (dirname out) = false -> denied w out = true ->
   exists w',
     Outline.convertItem url w = (Ok tt, w')
     /\ files w' = files w
     /\ console w'
        = console w ++ [log_fetching url; log_item_error url (FsError "open" out)])
  /\ (~ path_exists w (dirname out) -> denied w (dirname out) = true ->
      Outline.convertItem url w
      = (Ok tt, logged [log_fetching url; log_item_error url (FsError "mkdir" (dirname out))] w)).
Proof.
  intros out Hh Hs Hm.
  set (w1 := logged [log_fetching url] w).
  assert (Eone : Outline.convertOne url w
    = (ensureDirectoryExistence out ;;
       writeFileSync out
         (trim (Outline.reactComponent (iconNameOf url) (getFileNameFromUrl url) d)) ;;
       console_log ("React component saved as " +:+ iconNameOf url +:+ ".tsx")) w1).
  { unfold Outline.convertOne. erewrite bind_ok by reflexivity. fold w1.
    erewrite bind_ok by (apply (axios_get_ok _ url st (Text body)); assumption).
    erewrite bind_ok by reflexivity. rewrite Hm.
    erewrite bind_ok by reflexivity. reflexivity. }
  split.
  - intros Hdir Hfile.
    destruct (ensureDirectoryExistence_ok out w1 Hdir) as (b & w2 & E2 & Hf2 & Hc2 & Hg2).
    assert (Hden : denied w2 out = true).
    { destruct Hg2 as (_ & _ & -> & _). exact Hfile. }
    assert (Ethrow : Outline.convertOne url w = (Throw (FsError "open" out), w2)).
    { rewrite Eone. erewrite bind_ok by exact E2.
      unfold writeFileSync at 1. unfold bind at 1. now rewrite Hden. }
    eexists. unfold Outline.convertItem. rewrite (try_catch_throw _ _ _ _ _ Ethrow).
    split; [reflexivity|]. split.
    + cbn. exact Hf2.
    + cbn. rewrite Hc2. cbn. now rewrite <- app_assoc.
  - intros Hmissing Hdir.
    assert (Ethrow : Outline.convertOne url w = (Throw (FsError "mkdir" (dirname out)), w1)).
    { rewrite Eone. erewrite bind_throw; [reflexivity|].
      unfold ensureDirectoryExistence, bind, existsSync.
      rewrite bool_decide_eq_false_2 by exact Hmissing.
      unfold mkdirSync. cbn [denied w1 logged with_console]. now rewrite Hdir. }
    unfold Outline.convertItem. rewrite (try_catch_throw _ _ _ _ _ Ethrow).
    unfold console_error. fold (logged [log_item_error url (FsError "mkdir" (dirname out))] w1).
    apply f_equal. apply item_error_logged.
Qed.

(** X13.  In the solid program a failure of a library stays within its
    iteration: when [svgo] rejects the fetched data, or [prettier] the
    generated text, the error is logged for the URL, no file is written and
    nothing else changes. *)
Theorem solid_library_failure (url : string) (w : World) (st : nat) (data : Body) :
  http w url = Response st data ->
  status_ok st = true ->
  (optimize data = None ->
   Solid.convertItem url w
   = (Ok tt, logged [log_fetching url; log_item_error url (LibraryError "svgo")] w))
  /\ (forall optimized,
        optimize data = Some optimized ->
        prettier_format
          (Solid.reactComponent (iconNameOf url) (getFileNameFromUrl url)
             (svg_html optimized)) = None ->
        Solid.convertItem url w
        = (Ok tt, logged [log_fetching url; log_item_error url (LibraryError "prettier")] w)).
Proof.
  intros Hh Hs. set (w1 := logged [log_fetching url] w). split.
  - intros Ho.
    assert (Ethrow : Solid.convertOne url w = (Throw (LibraryError "svgo"), w1)).
    { unfold Solid.convertOne. erewrite bind_ok by reflexivity. fold w1.
      erewrite bind_ok by (apply (axios_get_ok _ url st data); assumption).
      rewrite Ho. reflexivity. }
    unfold Solid.convertItem. rewrite (try_catch_throw _ _ _ _ _ Ethrow).
    unfold console_error. apply f_equal. apply item_error_logged.
  - intros optimized Ho Hp.
    assert (Ethrow : Solid.convertOne url w = (Throw (LibraryError "prettier"), w1)).
    { unfold Solid.convertOne. erewrite bind_ok by reflexivity. fold w1.
      erewrite bind_ok by (apply (axios_get_ok _ url st data); assumption).
      rewrite Ho. erewrite bind_ok by reflexivity. fold (iconNameOf url).
      rewrite Hp. reflexivity. }
    unfold Solid.convertItem. rewrite (try_catch_throw _ _ _ _ _ Ethrow).
    unfold console_error. apply f_equal. apply item_error_logged.
Qed.

(** X14.  In the outline program fetched data that are not a string make the
    call of [match] fail: the type error is logged for the URL, no file is
    written and nothing else changes. *)
Theorem outline_data_not_a_string (url : string) (w : World) (st : nat) (data : Body) :
  http w url = Response st data ->
  status_ok st = true ->
  (forall text, data <> Text text) ->
  exists msg,
    Outline.convertItem url w
    = (Ok tt, logged [log_fetching url; log_item_error url (TypeError msg)] w).
Proof.
  intros Hh Hs Hd.
  set (w1 := logged [log_fetching url] w).
  assert (Ethrow : exists msg, Outline.convertOne url w = (Throw (TypeError msg), w1)).
  { unfold Outline.convertOne. erewrite bind_ok by reflexivity. fold w1.
    erewrite bind_ok by (apply (axios_get_ok _ url st data); assumption).
    destruct data as [t|l| |before bad|];
      [now destruct (Hd t) | eexists; reflexivity ..]. }
  destruct Ethrow as [msg Ethrow]. exists msg.
  unfold Outline.convertItem. rewrite (try_catch_throw _ _ _ _ _ Ethrow).
  unfold console_error. apply f_equal. apply item_error_logged.
Qed.

End ItemFailures.

Lemma outline_file_system_refusal_witness :
  exists w',
    @Outline.convertItem sample_paths "https://host/icons/a.svg" (read_only_world batch_net)
    = (Ok tt, w')
    /\ files w' = ∅
    /\ console w'
       = [log_fetching "https://host/icons/a.svg";
          log_item_error "https://host/icons/a.svg"
            (FsError "open" "/repo/src/assets/icons/AIcon.tsx")].
Proof.
  exact (proj1 (@outline_file_system_refusal sample_paths "https://host/icons/a.svg"
                  (read_only_world batch_net) 200 (svg_of "M1 1")
                  ("<path d=" +:+ dq +:+ "M1 1" +:+ dq) "M1 1" eq_refl eq_refl eq_refl)
           eq_refl eq_refl).
Defined.

Lemma solid_library_failure_witness :
  @Solid.convertItem sample_paths rejecting_libraries "https://host/icons/a.svg"
    (sample_world batch_net)
  = (Ok tt,
     logged [log_fetching "https://host/icons/a.svg";
             log_item_error "https://host/icons/a.svg" (LibraryError "svgo")]
       (sample_world batch_net)).
Proof.
  exact (proj1 (@solid_library_failure sample_paths rejecting_libraries
                  "https://host/icons/a.svg" (sample_world batch_net) 200
                  (Text (svg_of "M1 1")) eq_refl eq_refl) eq_refl).
Defined.

Lemma outline_data_not_a_string_witness :
  exists msg,
    @Outline.convertItem sample_paths "https://host/icons/a.svg" (sample_world json_net)
    = (Ok tt,
       logged [log_fetching "https://host/icons/a.svg";
               log_item_error "https://host/icons/a.svg" (TypeError msg)]
         (sample_world json_net)).
Proof.
  apply (@outline_data_not_a_string sample_paths "https://host/icons/a.svg"
           (sample_world json_net) 200 Other eq_refl eq_refl).
  intros text. discriminate.
Defined.

(** ** What the path pattern does and does not match *)

Lemma pathMatch_has_d_text s m d :
  exec Outline.pathRegex 0 s = Some (m, d) -> occurs ("d=" +:+ dq) s.
Proof.
  intros (pre & suf & -> & (w & attrs & rest & -> & _)%pathRegex_Some)%exec_Some.
  exists (pre +:+ "<path" +:+ String w attrs), (d +:+ dq +:+ rest).
  rewrite !sapp_assoc. simpl. rewrite ?sapp_assoc. reflexivity.
Qed.

Section PatternLimits.
Context `{PathModule}.

(** X15.  The pattern only knows a [d] attribute in double quotes: markup
    without the text [d=] followed by a double quote, as when the attribute
    is written in single quotes, has no match, and its URL is skipped with
    the diagnostic. *)
Theorem no_double_quoted_d_is_skipped (url : string) (w : World) (st : nat) (body : string) :
  http w url = Response st (Text body) ->
  status_ok st = true ->
  ~ occurs ("d=" +:+ dq) body ->
  Outline.convertItem url w
  = (Ok tt, logged [log_fetching url; log_no_path (getFileNameFromUrl url)] w).
Proof.
  intros Hh Hs Hn. apply (outline_convertItem_no_path url w st body Hh Hs).
  destruct (exec Outline.pathRegex 0 body) as [[m d]|] eqn:E; [|reflexivity].
  destruct Hn. exact (pathMatch_has_d_text body m d E).
Qed.

(** X16.  Of several texts [d=] with a quoted value in the first path tag,
    the pattern takes the last: when an [id] attribute follows the [d]
    attribute, the component is written with the value of the [id] as its
    path data, not with the value of [d]. *)
Theorem id_after_d_is_taken (url : string) (w : World) (st : nat)
    (pre v1 v2 tail : string) :
  let svgData :=
    pre +:+ "<path"
    +:+ String " " ((("d=" +:+ dq) +:+ v1 +:+ dq +:+ " i")
                    +:+ ("d=" +:+ dq) +:+ v2 +:+ dq +:+ "/" +:+ ">" +:+ tail) in
  let out := Outline.outputPath (cwd w) (iconNameOf url) in
  http w url = Response st (Text svgData) ->
  status_ok st = true ->
  ~ occurs "<path" pre ->
  sall (not_char ">") v1 = true ->
  sall (not_char (ascii_of_nat 34)) v2 = true ->
  sall (not_char ">") v2 = true ->
  ~ occurs ("d=" +:+ dq) (v2 +:+ dq +:+ "/") ->
  denied w (dirname out) = false ->
  denied w out = false ->
  exists w',
    Outline.convertItem url w = (Ok tt, w')
    /\ files w'
       = <[ out := trim (Outline.reactComponent (iconNameOf url) (getFileNameFromUrl url) v2) ]>
           (files w).
Proof.
  intros svgData out Hh Hs Hpre Hv1 Hv2 Hv2' Hn Hdir Hfile.
  destruct (pathMatch_first_tag pre " " (("d=" +:+ dq) +:+ v1 +:+ dq +:+ " i") v2 "/" tail)
    as [m Em]; try assumption; try reflexivity.
  { rewrite !sall_app, Hv1. reflexivity. }
  destruct (outline_convertItem_writes url w st svgData m v2 Hh Hs Em Hdir Hfile)
    as (w' & E & Hf & _).
  now exists w'.
Qed.

End PatternLimits.

Lemma no_double_quoted_d_is_skipped_witness :
  @Outline.convertItem sample_paths "https://host/icons/two.svg"
    (sample_world (markup_net single_quoted))
  = (Ok tt,
     logged [log_fetching "https://host/icons/two.svg"; log_no_path "two"]
       (sample_world (markup_net single_quoted))).
Proof.
  apply (@no_double_quoted_d_is_skipped sample_paths "https://host/icons/two.svg"
           (sample_world (markup_net single_quoted)) 200 single_quoted eq_refl eq_refl).
  now apply not_includes_not_occurs.
Defined.

Lemma id_after_d_is_taken_witness :
  exists w',
    @Outline.convertItem sample_paths "https://host/icons/two.svg"
      (sample_world (markup_net id_after_d)) = (Ok tt, w')
    /\ files w'
       = {[ "/repo/src/assets/icons/TwoIcon.tsx"
            := trim (Outline.reactComponent "TwoIcon" "two" "p") ]}.
Proof.
  apply (@id_after_d_is_taken sample_paths "https://host/icons/two.svg"
           (sample_world (markup_net id_after_d)) 200
           "<svg>" "M1 1" "p" ("<path d=" +:+ dq +:+ "M2 2" +:+ dq +:+ "/></svg>"));
    try reflexivity.
  - now apply not_includes_not_occurs.
  - now apply not_includes_not_occurs.
Defined.

(** ** Trimming the template *)

Lemma ends_in_app a b z : (exists m, b = m +:+ z) -> exists m, a +:+ b = m +:+ z.
Proof. intros [m ->]. exists (a +:+ m). now rewrite sapp_assoc. Qed.

Lemma trim_one_leading_space sp first rest last m :
  is_space sp = true -> is_space first = false -> is_space last = false ->
  String sp (String first rest) = m +:+ String last "" ->
  trim (String sp (String first rest)) = String first rest.
Proof.
  intros Hsp Hf Hl E. unfold trim. cbn [trimStart]. rewrite Hsp. cbn [trimStart]. rewrite Hf.
  destruct m as [|c m]; [discriminate|]. injection E as _ E.
  set (t := String first rest) in *.
  assert (Er : srev t = String last (srev m)).
  { rewrite E. unfold srev. now rewrite srev_onto_app. }
  rewrite Er. cbn [trimStart]. rewrite Hl, <- Er. apply srev_involutive.
Qed.

(** X17.  Whatever the name, the label and the path data are, trimming the
    outline template removes its leading line feed and nothing else: white
    space inside the interpolated values is never lost. *)
Theorem trim_drops_only_the_leading_line_feed (iconName ariaLabel pathData : string) :
  Outline.reactComponent iconName ariaLabel pathData
  = nl +:+ trim (Outline.reactComponent iconName ariaLabel pathData).
Proof.
  assert (Eend : exists m, Outline.reactComponent iconName ariaLabel pathData
                           = m +:+ String "}" "").
  { unfold Outline.reactComponent, unlines. cbn [String.concat].
    repeat apply ends_in_app. now exists "". }
  destruct Eend as [m Em].
  assert (Estart : exists rest, Outline.reactComponent iconName ariaLabel pathData
                                = String (ascii_of_nat 10) (String "i" rest)).
  { unfold Outline.reactComponent, unlines, nl. cbn [String.concat]. simpl.
    eexists. reflexivity. }
  destruct Estart as [rest Es]. rewrite Es in Em |- *.
  now rewrite (trim_one_leading_space (ascii_of_nat 10) "i" rest "}" m
                 eq_refl eq_refl eq_refl Em).
Qed.

(** ** A document without an [svg] element in the solid program *)

Lemma occurs_prefix x s r : strip_prefix x s = Some r -> occurs x s.
Proof. intros E%strip_prefix_Some. now exists "", r. Qed.

Lemma occurs_cons x c s : occurs x s -> occurs x (String c s).
Proof. intros (a & b & ->). now exists (String c a), b. Qed.

Lemma occurs_app_r x a s : occurs x s -> occurs x (a +:+ s).
Proof. intros (a' & b & ->). exists (a +:+ a'), b. now rewrite sapp_assoc. Qed.

Section SolidNull.
Context `{PathModule} `{MarkupLibraries}.

(** X18.  The solid program has no way to skip an icon.  When the optimized
    markup has no [svg] element, so that its inner markup is [null], the
    template is filled with the text [null] on the line of the body, and
    the component is formatted and written like any other. *)
Theorem solid_null_body_is_written (url : string) (w : World) (st : nat) (data : Body)
    (optimized code : string) :
  let out := Solid.outputPath (cwd w) (iconNameOf url) in
  let template := Solid.reactComponent (iconNameOf url) (getFileNameFromUrl url) None in
  http w url = Response st data ->
  status_ok st = true ->
  optimize data = Some optimized ->
  svg_html optimized = None ->
  prettier_format template = Some code ->
  denied w (dirname out) = false ->
  denied w out = false ->
  occurs (nl +:+ "      null" +:+ nl +:+ "    </svg>") template
  /\ exists w',
       Solid.convertItem url w = (Ok tt, w')
       /\ files w' = <[ out := code ]> (files w)
       /\ console w' = console w ++ [log_fetching url; log_saved (iconNameOf url)].
Proof.
  intros out template Hh Hs Ho Hnull Hp Hdir Hfile. split.
  - unfold template, Solid.reactComponent, unlines, nl. cbn [String.concat Solid.interpolate].
    simpl.
    repeat first [ solve [eapply occurs_prefix; reflexivity]
                 | apply occurs_cons
                 | apply occurs_app_r ].
  - destruct (solid_convertItem_writes url w st data optimized code Hh Hs Ho) as
      (w' & E & Hf & Hc & _); try assumption.
    { now rewrite Hnull. }
    now exists w'.
Qed.

End SolidNull.

Lemma solid_null_body_is_written_witness :
  exists w',
    @Solid.convertItem sample_paths rootless_libraries "https://host/icons/a.svg"
      (sample_world batch_net) = (Ok tt, w')
    /\ files w'
       = {[ "/repo/src/icons/AIcon.tsx" := Solid.reactComponent "AIcon" "a" None ]}.
Proof.
  destruct (@solid_null_body_is_written sample_paths rootless_libraries
              "https://host/icons/a.svg" (sample_world batch_net) 200
              (Text (svg_of "M1 1")) (svg_of "M1 1")
              (Solid.reactComponent "AIcon" "a" None)
              eq_refl eq_refl eq_refl eq_refl eq_refl eq_refl eq_refl)
    as (_ & w' & E & Hf & _).
  exists w'. split; [exact E | exact Hf].
Defined.

(** ** Where the pattern finds the path data *)

(** X19.  In the outline program the component is written from the first
    match alone.  When the first [<path] of the markup opens a tag in which
    a text [d=] with an opening quote is followed by a value without [>]
    and by its closing quote, and no further such text stands between that
    value and the [>] of the tag, the component is written with this value,
    and the text written is the same whatever markup, later paths included,
    follows the tag. *)
Theorem first_path_alone_is_emitted `{PathModule} (url : string) (w : World) (st : nat)
    (pre : string) (sp : ascii) (attrs v t tail : string) :
  let svgData :=
    pre +:+ "<path"
    +:+ String sp (attrs +:+ ("d=" +:+ dq) +:+ v +:+ dq +:+ t +:+ ">" +:+ tail) in
  let out := Outline.outputPath (cwd w) (iconNameOf url) in
  http w url = Response st (Text svgData) ->
  status_ok st = true ->
  ~ occurs "<path" pre ->
  is_space sp = true ->
  sall (not_char ">") attrs = true ->
  sall (not_char (ascii_of_nat 34)) v = true ->
  sall (not_char ">") v = true ->
  sall (not_char ">") t = true ->
  ~ occurs ("d=" +:+ dq) (v +:+ dq +:+ t) ->
  denied w (dirname out) = false ->
  denied w out = false ->
  exists w',
    Outline.convertItem url w = (Ok tt, w')
    /\ files w'
       = <[ out := trim (Outline.reactComponent (iconNameOf url) (getFileNameFromUrl url) v) ]>
           (files w).
Proof.
  intros svgData out Hh Hs Hpre Hsp Hattrs Hv Hv' Ht Hn Hdir Hfile.
  destruct (pathMatch_first_tag pre sp attrs v t tail Hpre Hsp Hattrs Hv Hv' Ht Hn)
    as [m Em].
  destruct (outline_convertItem_writes url w st svgData m v Hh Hs Em Hdir Hfile)
    as (w' & E & Hf & _).
  now exists w'.
Qed.

Lemma first_path_alone_is_emitted_witness :
  exists w',
    @Outline.convertItem sample_paths "https://host/icons/two.svg"
      (sample_world (markup_net (two_paths "M1 1" "M2 2"))) = (Ok tt, w')
    /\ files w'
       = {[ "/repo/src/assets/icons/TwoIcon.tsx"
            := trim (Outline.reactComponent "TwoIcon" "two" "M1 1") ]}.
Proof.
  apply (@first_path_alone_is_emitted sample_paths "https://host/icons/two.svg"
           (sample_world (markup_net (two_paths "M1 1" "M2 2"))) 200
           "<svg>" " " "" "M1 1" "/" ("<path d=" +:+ dq +:+ "M2 2" +:+ dq +:+ "/></svg>"));
    try reflexivity.
  - now apply not_includes_not_occurs.
  - now apply not_includes_not_occurs.
Defined.
